(** * PrepClass Mentor (app.py): persistence, export and session model

    A shallow embedding of the Python module [app.py]: the credential and
    history stores kept in an SQLite file, the timestamp format, the two
    export renderers and the part of the Streamlit controller that drives
    them.  Python [str] values are sequences of Unicode code points, SQL
    tables are lists of rows, the file system is a finite map from paths
    to database files, and a raised exception is a value of [result]. *)

From Stdlib Require Import ZArith String Ascii List Lia Sorting.Sorted Permutation.
From stdpp Require Import base option list gmap.

Open Scope Z_scope.

(** ** Python strings and exceptions *)

(** A Python [str] is a sequence of code points, each in [0, 0x10FFFF];
    [bytes] is a sequence of integers in [0, 255]. *)
Abbreviation pystr := (list Z) (only parsing).
Abbreviation pybytes := (list Z) (only parsing).

Definition code_point (c : Z) : Prop := 0 <= c <= 1114111.

(** Lone surrogates are code points but not Unicode scalar values. *)
Definition is_surrogate (c : Z) : bool := (55296 <=? c) && (c <=? 57343).

Definition scalar_value (c : Z) : Prop := code_point c /\ is_surrogate c = false.

(** String literals of the source, written as Rocq strings (ASCII only). *)
Definition py (s : string) : pystr :=
  List.map (fun a => Z.of_N (N_of_ascii a)) (list_ascii_of_string s).

Inductive exn : Type :=
  | IntegrityError
  | OperationalError
  | UnicodeEncodeError
  | UnicodeDecodeError
  | KeyError
  | AttributeError
  | APIError (msg : pystr).

Inductive result (A : Type) : Type :=
  | Ok (a : A)
  | Raise (e : exn).
Arguments Ok {A} a.
Arguments Raise {A} e.

#[global] Instance result_ret : MRet result := fun A a => Ok a.
#[global] Instance result_fmap : FMap result := fun A B f m =>
  match m with
  | Ok a => Ok (f a)
  | Raise e => Raise e
  end.
#[global] Instance result_bind : MBind result := fun A B f m =>
  match m with
  | Ok a => f a
  | Raise e => Raise e
  end.

(** ** str.encode / bytes.decode *)

Module Codec.

(** The low six bits of a code point and what is left above them. *)
Definition lo6 (c : Z) : Z := c mod 64.
Definition hi6 (c : Z) : Z := c / 64.

(** One code point as UTF-8: 0xxxxxxx, 110xxxxx 10xxxxxx,
    1110xxxx 10xxxxxx 10xxxxxx or 11110xxx 10xxxxxx 10xxxxxx 10xxxxxx. *)
Definition utf8_char (c : Z) : pybytes :=
  if c <? 128 then [c]
  else if c <? 2048 then [192 + hi6 c; 128 + lo6 c]
  else if c <? 65536 then
    [224 + hi6 (hi6 c); 128 + lo6 (hi6 c); 128 + lo6 c]
  else
    [240 + hi6 (hi6 (hi6 c)); 128 + lo6 (hi6 (hi6 c));
     128 + lo6 (hi6 c); 128 + lo6 c].

(** [s.encode('utf-8')]: the strict error handler raises on a surrogate. *)
Fixpoint encode_utf8 (s : pystr) : result pybytes :=
  match s with
  | [] => Ok []
  | c :: s' =>
      if is_surrogate c then Raise UnicodeEncodeError
      else bs ← encode_utf8 s'; Ok (utf8_char c ++ bs)
  end.

Definition is_cont (b : Z) : bool := (128 <=? b) && (b <=? 191).

(** [bs.decode('utf-8')]: rejects stray or missing continuation bytes,
    overlong forms, surrogates and values above 0x10FFFF. *)
Fixpoint decode_utf8 (bs : pybytes) : result pystr :=
  match bs with
  | [] => Ok []
  | b0 :: r0 =>
      if (0 <=? b0) && (b0 <? 128) then s ← decode_utf8 r0; Ok (b0 :: s)
      else if (192 <=? b0) && (b0 <? 224) then
        match r0 with
        | b1 :: r1 =>
            let c := (b0 - 192) * 64 + (b1 - 128) in
            if is_cont b1 && (128 <=? c)
            then s ← decode_utf8 r1; Ok (c :: s)
            else Raise UnicodeDecodeError
        | _ => Raise UnicodeDecodeError
        end
      else if (224 <=? b0) && (b0 <? 240) then
        match r0 with
        | b1 :: b2 :: r2 =>
            let c := ((b0 - 224) * 64 + (b1 - 128)) * 64 + (b2 - 128) in
            if is_cont b1 && is_cont b2 && (2048 <=? c)
               && negb (is_surrogate c)
            then s ← decode_utf8 r2; Ok (c :: s)
            else Raise UnicodeDecodeError
        | _ => Raise UnicodeDecodeError
        end
      else if (240 <=? b0) && (b0 <? 248) then
        match r0 with
        | b1 :: b2 :: b3 :: r3 =>
            let c := (((b0 - 240) * 64 + (b1 - 128)) * 64 + (b2 - 128)) * 64
                     + (b3 - 128) in
            if is_cont b1 && is_cont b2 && is_cont b3
               && (65536 <=? c) && (c <=? 1114111)
            then s ← decode_utf8 r3; Ok (c :: s)
            else Raise UnicodeDecodeError
        | _ => Raise UnicodeDecodeError
        end
      else Raise UnicodeDecodeError
  end.

(** [text.encode('latin-1', 'replace').decode('latin-1')]: a code point
    above 0xFF (surrogates included) becomes '?', the others survive the
    trip through one byte unchanged. *)
Definition latin1_replace (c : Z) : Z := if c <=? 255 then c else 63.

Definition encode_latin1_replace (s : pystr) : pybytes := List.map latin1_replace s.
Definition decode_latin1 (bs : pybytes) : pystr := bs.

End Codec.

(** ** str methods used by the renderer *)

Module Str.

(** [str.isspace] on one code point (CPython's _PyUnicode_IsWhitespace). *)
Definition isspace (c : Z) : bool :=
  ((9 <=? c) && (c <=? 13)) || ((28 <=? c) && (c <=? 32))
  || (c =? 133) || (c =? 160) || (c =? 5760)
  || ((8192 <=? c) && (c <=? 8202))
  || (c =? 8232) || (c =? 8233) || (c =? 8239) || (c =? 8287) || (c =? 12288).

Fixpoint lstrip (s : pystr) : pystr :=
  match s with
  | c :: s' => if isspace c then lstrip s' else s
  | [] => []
  end.

Definition rstrip (s : pystr) : pystr := rev (lstrip (rev s)).

(** [s.strip()] *)
Definition strip (s : pystr) : pystr := rstrip (lstrip s).

(** [s.endswith(c)] and [s and s[0] == c] for a one-character [c]. *)
Definition endswith_char (s : pystr) (c : Z) : bool :=
  match rev s with
  | d :: _ => d =? c
  | [] => false
  end.

Definition first_is (s : pystr) (c : Z) : bool :=
  match s with
  | d :: _ => d =? c
  | [] => false
  end.

(** [s.split(sep)] for a one-character separator: never empty. *)
Fixpoint split (sep : Z) (s : pystr) : list pystr :=
  match s with
  | [] => [[]]
  | c :: s' =>
      if c =? sep then [] :: split sep s'
      else match split sep s' with
           | l :: ls => (c :: l) :: ls
           | [] => [[c]]
           end
  end.

Fixpoint startswith (p s : pystr) : bool :=
  match p, s with
  | [], _ => true
  | a :: p', b :: s' => (a =? b) && startswith p' s'
  | _ :: _, [] => false
  end.

(** [needle in hay] *)
Fixpoint contains (needle hay : pystr) : bool :=
  startswith needle hay ||
  match hay with
  | [] => false
  | _ :: hay' => contains needle hay'
  end.

(** [a + sep + b + sep + ...] without the trailing separator. *)
Fixpoint join (sep : Z) (ls : list pystr) : pystr :=
  match ls with
  | [] => []
  | [l] => l
  | l :: ls' => l ++ sep :: join sep ls'
  end.

(** [s.lower()] on the ASCII letters, which is all the difficulty names
    contain. *)
Definition lower_char (c : Z) : Z :=
  if (65 <=? c) && (c <=? 90) then c + 32 else c.

Definition lower (s : pystr) : pystr := List.map lower_char s.

End Str.

(** ** The FPDF object, as far as [create_pdf] drives it *)

Module Fpdf.

Record font : Type := { family : pystr; style : pystr; size : Z }.

(** What a drawing call leaves on the page: [cell] prints one line that
    is never wrapped, [multi_cell] breaks its text at the right margin.
    Both draw in the font that is current when they are called. *)
Inductive item : Type :=
  | Cell (f : font) (w h : Z) (txt : pystr) (ln : bool)
  | MultiCell (f : font) (w h : Z) (txt : pystr).

Record pdf : Type := { pages : nat; cur_font : font; items : list item }.

Definition FPDF : pdf :=
  {| pages := 0;
     cur_font := {| family := []; style := []; size := 12 |};
     items := [] |}.

Definition add_page (p : pdf) : pdf :=
  {| pages := S (pages p); cur_font := cur_font p; items := items p |}.

Definition set_font (p : pdf) (fam sty : pystr) (sz : Z) : pdf :=
  {| pages := pages p;
     cur_font := {| family := fam; style := sty; size := sz |};
     items := items p |}.

Definition cell (p : pdf) (w h : Z) (txt : pystr) (ln : bool) : pdf :=
  {| pages := pages p; cur_font := cur_font p;
     items := items p ++ [Cell (cur_font p) w h txt ln] |}.

Definition multi_cell (p : pdf) (w h : Z) (txt : pystr) : pdf :=
  {| pages := pages p; cur_font := cur_font p;
     items := items p ++ [MultiCell (cur_font p) w h txt] |}.

End Fpdf.

(** ** Export renderers (nested in [main_app]) *)

Definition clean_text (text : pystr) : pystr :=
  Codec.decode_latin1 (Codec.encode_latin1_replace text).

(** The condition of the [if] in the loop of [create_pdf]. *)
Definition is_heading (line : pystr) : bool :=
  Str.endswith_char (Str.strip line) 58
  || (match Str.strip line with [] => false | _ :: _ => true end
      && Str.first_is (Str.strip line) 35).

Definition render_line (pdf : Fpdf.pdf) (line : pystr) : Fpdf.pdf :=
  if is_heading line then
    let pdf := Fpdf.set_font pdf (py "Arial") (py "B") 14 in
    let pdf := Fpdf.cell pdf 200 10 (clean_text line) true in
    Fpdf.set_font pdf (py "Arial") [] 12
  else
    Fpdf.multi_cell pdf 0 8 (clean_text line).

(** [create_pdf] up to the last line: the document handed to
    [pdf.output(dest='S')], whose serialisation is FPDF's own. *)
Definition create_pdf (content filename : pystr) : Fpdf.pdf :=
  let pdf := Fpdf.FPDF in
  let pdf := Fpdf.add_page pdf in
  let pdf := Fpdf.set_font pdf (py "Arial") [] 12 in
  let lines := Str.split 10 content in
  fold_left render_line lines pdf.

Definition create_markdown (content filename : pystr) : result pybytes :=
  Codec.encode_utf8 content.

(** ** datetime.now().strftime("%Y-%m-%d %H:%M") *)

Module Datetime.

Record datetime : Type :=
  { year : Z; month : Z; day : Z; hour : Z; minute : Z;
    second : Z; microsecond : Z }.

Definition is_leap (y : Z) : bool :=
  (y mod 4 =? 0) && (negb (y mod 100 =? 0) || (y mod 400 =? 0)).

Definition days_in_month (y m : Z) : Z :=
  if m =? 2 then (if is_leap y then 29 else 28)
  else if (m =? 4) || (m =? 6) || (m =? 9) || (m =? 11) then 30
  else 31.

(** The values a [datetime] object can hold (MINYEAR = 1, MAXYEAR = 9999). *)
Definition valid (t : datetime) : Prop :=
  1 <= year t <= 9999 /\ 1 <= month t <= 12 /\
  1 <= day t <= days_in_month (year t) (month t) /\
  0 <= hour t <= 23 /\ 0 <= minute t <= 59 /\
  0 <= second t <= 59 /\ 0 <= microsecond t <= 999999.

Definition minute_precision (t : datetime) : Prop :=
  second t = 0 /\ microsecond t = 0.

(** Python orders datetime objects field by field. *)
Definition cmp_then (c : comparison) (k : comparison) : comparison :=
  match c with Eq => k | _ => c end.

Definition compare (a b : datetime) : comparison :=
  cmp_then (year a ?= year b)
  (cmp_then (month a ?= month b)
  (cmp_then (day a ?= day b)
  (cmp_then (hour a ?= hour b)
  (cmp_then (minute a ?= minute b)
  (cmp_then (second a ?= second b)
            (microsecond a ?= microsecond b)))))).

Definition le (a b : datetime) : Prop := compare a b <> Gt.

Definition digit (d : Z) : Z := 48 + d.

(** %m, %d, %H, %M: two digits, zero padded. *)
Definition pad2 (n : Z) : pystr := [digit (n / 10); digit (n mod 10)].

(** %Y as the C library prints it: the decimal digits of the year
    (glibc does not pad; the padded variants agree from year 1000 on). *)
Definition fmt_Y (y : Z) : pystr :=
  (if 1000 <=? y then [digit (y / 1000)] else [])
  ++ (if 100 <=? y then [digit (y / 100 mod 10)] else [])
  ++ (if 10 <=? y then [digit (y / 10 mod 10)] else [])
  ++ [digit (y mod 10)].

(** [t.strftime("%Y-%m-%d %H:%M")] *)
Definition strftime (t : datetime) : pystr :=
  fmt_Y (year t) ++ 45 :: pad2 (month t) ++ 45 :: pad2 (day t)
  ++ 32 :: pad2 (hour t) ++ 58 :: pad2 (minute t).

(** [t.toordinal()]: the day number in the proleptic Gregorian calendar,
    day 1 being 0001-01-01. *)
Definition days_before_year (y : Z) : Z :=
  (y - 1) * 365 + (y - 1) / 4 - (y - 1) / 100 + (y - 1) / 400.

Definition days_before_month (y m : Z) : Z :=
  (if m =? 1 then 0 else if m =? 2 then 31 else if m =? 3 then 59
   else if m =? 4 then 90 else if m =? 5 then 120 else if m =? 6 then 151
   else if m =? 7 then 181 else if m =? 8 then 212 else if m =? 9 then 243
   else if m =? 10 then 273 else if m =? 11 then 304 else 334)
  + (if (2 <? m) && is_leap y then 1 else 0).

Definition toordinal (t : datetime) : Z :=
  days_before_year (year t) + days_before_month (year t) (month t) + day t.

(** The position of [t] on the time line, counted in minutes. *)
Definition minutes (t : datetime) : Z :=
  (toordinal t * 24 + hour t) * 60 + minute t.

Definition year_length (y : Z) : Z := if is_leap y then 366 else 365.

End Datetime.

(** ** The SQLite file: two tables and the AUTOINCREMENT counter *)

Module Sql.

Record user_row : Type := { u_username : pystr; u_password_hash : pystr }.

Record history_row : Type :=
  { h_id : Z; h_username : pystr; h_topic : pystr; h_difficulty : pystr;
    h_timestamp : pystr; h_pre_class : pystr; h_in_class : pystr;
    h_post_class : pystr }.

(** A table is [None] until CREATE TABLE has run. [sqlite_sequence] is
    the largest id the history table has ever handed out. *)
Record database : Type :=
  { users : option (list user_row);
    history : option (list history_row);
    sqlite_sequence : Z }.

Definition empty_database : database :=
  {| users := None; history := None; sqlite_sequence := 0 |}.

(** CREATE TABLE IF NOT EXISTS users ... / history ... *)
Definition create_users_table (db : database) : database :=
  {| users := Some (default [] (users db));
     history := history db; sqlite_sequence := sqlite_sequence db |}.

Definition create_history_table (db : database) : database :=
  {| users := users db;
     history := Some (default [] (history db));
     sqlite_sequence := sqlite_sequence db |}.

(** The table of a statement, or "no such table". *)
Definition table {A} (t : option (list A)) : result (list A) :=
  match t with
  | Some rows => Ok rows
  | None => Raise OperationalError
  end.

(** INSERT INTO users VALUES (?, ?): username is the PRIMARY KEY. *)
Definition insert_user (db : database) (username hash : pystr) : result database :=
  rows ← table (users db);
  if existsb (fun r => bool_decide (u_username r = username)) rows
  then Raise IntegrityError
  else Ok {| users := Some (rows ++ [{| u_username := username;
                                         u_password_hash := hash |}]);
             history := history db; sqlite_sequence := sqlite_sequence db |}.

(** SELECT password_hash FROM users WHERE username=?, then fetchone(). *)
Definition select_password_hash (db : database) (username : pystr)
  : result (option pystr) :=
  rows ← table (users db);
  Ok (u_password_hash <$>
      List.find (fun r => bool_decide (u_username r = username)) rows).

Definition history_match (username topic : pystr) (r : history_row) : bool :=
  bool_decide (h_username r = username) && bool_decide (h_topic r = topic).

(** SELECT id FROM history WHERE username=? AND topic=?, then fetchone(). *)
Definition select_history_id (db : database) (username topic : pystr)
  : result (option Z) :=
  rows ← table (history db);
  Ok (h_id <$> List.find (history_match username topic) rows).

(** UPDATE history SET difficulty=?, timestamp=?, pre_class=?, in_class=?,
    post_class=? WHERE id=? *)
Definition update_row (id : Z) (difficulty timestamp pre inc post : pystr)
  (r : history_row) : history_row :=
  if h_id r =? id then
    {| h_id := h_id r; h_username := h_username r; h_topic := h_topic r;
       h_difficulty := difficulty; h_timestamp := timestamp;
       h_pre_class := pre; h_in_class := inc; h_post_class := post |}
  else r.

Definition update_history (db : database) (id : Z)
  (difficulty timestamp pre inc post : pystr) : result database :=
  rows ← table (history db);
  Ok {| users := users db;
        history := Some (List.map (update_row id difficulty timestamp pre inc post) rows);
        sqlite_sequence := sqlite_sequence db |}.

(** INSERT INTO history (username, topic, ...) VALUES (...): the id is
    one more than the largest id ever present in the table. *)
Definition next_id (db : database) (rows : list history_row) : Z :=
  1 + fold_right Z.max (sqlite_sequence db) (List.map h_id rows).

Definition insert_history (db : database)
  (username topic difficulty timestamp pre inc post : pystr) : result database :=
  rows ← table (history db);
  let id := next_id db rows in
  Ok {| users := users db;
        history := Some (rows ++
          [{| h_id := id; h_username := username; h_topic := topic;
              h_difficulty := difficulty; h_timestamp := timestamp;
              h_pre_class := pre; h_in_class := inc; h_post_class := post |}]);
        sqlite_sequence := id |}.

(** TEXT values compare code point by code point (the BINARY collation on
    the UTF-8 bytes, which keeps the order of the code points). *)
Fixpoint text_compare (a b : pystr) : comparison :=
  match a, b with
  | [], [] => Eq
  | [], _ :: _ => Lt
  | _ :: _, [] => Gt
  | x :: a', y :: b' =>
      match x ?= y with
      | Eq => text_compare a' b'
      | c => c
      end
  end.

Definition text_le (a b : pystr) : Prop := text_compare a b <> Gt.

(** ORDER BY timestamp DESC: rows with equal timestamps stay in table
    order. *)
Fixpoint insert_desc (r : history_row) (rs : list history_row) : list history_row :=
  match rs with
  | [] => [r]
  | r' :: rs' =>
      match text_compare (h_timestamp r) (h_timestamp r') with
      | Lt => r' :: insert_desc r rs'
      | _ => r :: rs
      end
  end.

Definition order_by_timestamp_desc (rs : list history_row) : list history_row :=
  fold_right insert_desc [] rs.

(** SELECT topic, difficulty, timestamp, pre_class, in_class, post_class
    FROM history WHERE username=? ORDER BY timestamp DESC, then fetchall(). *)
Definition select_history (db : database) (username : pystr)
  : result (list history_row) :=
  rows ← table (history db);
  Ok (order_by_timestamp_desc
        (List.filter (fun r => bool_decide (h_username r = username)) rows)).

End Sql.

(** ** Python dicts keep insertion order *)

Module Dict.

(** [d[k] = v]: a present key keeps its place and takes the new value, a
    new key goes to the end. *)
Fixpoint set {V} (k : pystr) (v : V) (d : list (pystr * V)) : list (pystr * V) :=
  match d with
  | [] => [(k, v)]
  | (k', v') :: d' =>
      if bool_decide (k' = k) then (k, v) :: d' else (k', v') :: set k v d'
  end.

Fixpoint get {V} (k : pystr) (d : list (pystr * V)) : option V :=
  match d with
  | [] => None
  | (k', v') :: d' => if bool_decide (k' = k) then Some v' else get k d'
  end.

Definition keys {V} (d : list (pystr * V)) : list pystr := List.map fst d.

End Dict.

(** ** The process environment: working directory and files *)

Record world : Type :=
  { cwd : pystr;
    files : gmap (list Z) Sql.database }.

(** The file a path names: relative paths start at the working directory. *)
Definition resolve (dir path : pystr) : pystr :=
  if Str.first_is path 47 then path
  else if Str.endswith_char dir 47 then dir ++ path
  else dir ++ 47 :: path.

(** [sqlite3.connect(path)]: a file that does not exist yet is an empty
    database, and reads like one. *)
Definition connect (w : world) (path : pystr) : Sql.database :=
  default Sql.empty_database (files w !! resolve (cwd w) path).

(** [conn.commit()]: the statements of the connection reach the file. *)
Definition commit (w : world) (path : pystr) (db : Sql.database) : world :=
  {| cwd := cwd w; files := <[resolve (cwd w) path := db]> (files w) |}.

(** ** passlib's pbkdf2_sha256 handler *)

(** [pbkdf2_hash salt password] is [pbkdf2_sha256.hash(password)] when
    the handler draws [salt]; [pbkdf2_verify password hashed] is
    [pbkdf2_sha256.verify(password, hashed)]. *)
Class PasswordHash : Type :=
  { pbkdf2_hash : pystr -> pystr -> pystr;
    pbkdf2_verify : pystr -> pystr -> bool }.


(** ** app.py, module level *)

Definition get_db_path (w : world) : pystr :=
  if Str.contains (py "streamlit") (cwd w)
  then py "/tmp/prepclass.db"
  else py "prepclass.db".

Definition init_db (w : world) : world :=
  let path := get_db_path w in
  let conn := connect w path in
  let conn := Sql.create_users_table conn in
  let conn := Sql.create_history_table conn in
  commit w path conn.

Section Passwords.
Context `{PasswordHash}.

Definition hash_password (salt password : pystr) : pystr :=
  pbkdf2_hash salt password.

Definition verify_password (password hashed : pystr) : bool :=
  pbkdf2_verify password hashed.

(** [salt] is the random salt the hash call draws.  The function returns
    a value or raises, and leaves the world it committed (or not). *)
Definition create_user (w : world) (salt username password : pystr)
  : result bool * world :=
  let conn := connect w (py "prepclass.db") in
  match Sql.insert_user conn username (hash_password salt password) with
  | Ok conn' => (Ok true, commit w (py "prepclass.db") conn')
  | Raise IntegrityError => (Ok false, w)
  | Raise e => (Raise e, w)
  end.

Definition authenticate_user (w : world) (username password : pystr)
  : result bool :=
  let conn := connect w (py "prepclass.db") in
  res ← Sql.select_password_hash conn username;
  match res with
  | Some hashed => if verify_password password hashed then Ok true else Ok false
  | None => Ok false
  end.

End Passwords.

(** The [content] argument of [save_history_to_db]: a dict with the keys
    "pre_class", "in_class" and "post_class". *)
Record content : Type :=
  { pre_class : pystr; in_class : pystr; post_class : pystr }.

(** [now] is what [datetime.now()] returns during the call. *)
Definition save_history_to_db (w : world) (now : Datetime.datetime)
  (username topic difficulty : pystr) (c : content) : result unit * world :=
  let conn := connect w (py "prepclass.db") in
  match Sql.select_history_id conn username topic with
  | Raise e => (Raise e, w)
  | Ok exists_ =>
      let stmt :=
        match exists_ with
        | Some id =>
            Sql.update_history conn id difficulty (Datetime.strftime now)
              (pre_class c) (in_class c) (post_class c)
        | None =>
            Sql.insert_history conn username topic difficulty
              (Datetime.strftime now) (pre_class c) (in_class c) (post_class c)
        end in
      match stmt with
      | Ok conn' => (Ok tt, commit w (py "prepclass.db") conn')
      | Raise e => (Raise e, w)
      end
  end.

(** The value stored under a topic in the dict [load_history_from_db]
    builds. *)
Record entry : Type :=
  { e_difficulty : pystr; e_timestamp : pystr;
    e_pre_class : pystr; e_in_class : pystr; e_post_class : pystr }.

Definition entry_of_row (r : Sql.history_row) : entry :=
  {| e_difficulty := Sql.h_difficulty r; e_timestamp := Sql.h_timestamp r;
     e_pre_class := Sql.h_pre_class r; e_in_class := Sql.h_in_class r;
     e_post_class := Sql.h_post_class r |}.

Definition load_history_from_db (w : world) (username : pystr)
  : result (list (pystr * entry)) :=
  let conn := connect w (py "prepclass.db") in
  rows ← Sql.select_history conn username;
  Ok (fold_left (fun history row => Dict.set (Sql.h_topic row) (entry_of_row row) history)
                rows []).

(** ** The text-completion endpoint *)

Record chat_request : Type :=
  { rq_api_key : pystr; rq_model : pystr; rq_system : pystr;
    rq_user : pystr; rq_temperature_tenths : Z }.

(** ** st.session_state and the widgets of one script run *)

Record displayed : Type :=
  { d_pre_class : option pystr; d_in_class : option pystr;
    d_post_class : option pystr }.

(** A key that is not in [st.session_state] is [None] at the outer
    level; [current_topic] can also hold Python's None. *)
Record session_state : Type :=
  { authenticated : bool;
    username : option pystr;
    history : option (list (pystr * entry));
    current_topic : option (option pystr);
    displayed_content : option displayed;
    selected_difficulty : option pystr }.

Inductive button : Type :=
  | LoginBtn | CreateAccountBtn
  | GenerateBtn | LoadTopicBtn | ClearHistoryBtn | LogoutBtn.

#[global] Instance button_eq_dec : EqDecision button.
Proof. solve_decision. Defined.

(** What the browser sends with a run: the text inputs, the selected
    history topic and the button that was pressed, if any. *)
Record widgets : Type :=
  { login_user : pystr; login_pass : pystr;
    new_user : pystr; new_pass : pystr; confirm_pass : pystr;
    api_key_input : pystr; topic_input : pystr;
    history_select : pystr;
    clicked : option button }.

Inductive ui_message : Type :=
  | ErrInvalidCredentials
  | ErrCredentialsRequired
  | ErrPasswordMismatch
  | ErrUsernameFormat
  | ErrPasswordTooShort
  | OkAccountCreated
  | ErrUsernameExists
  | WarnNoTopic
  | WarnNoApiKey
  | ErrGenerating (e : exn)
  | InfoCheckApiKey
  | OkGenerated
  | InfoNoHistory.

(** One download button: file name, MIME type and the data computed for
    it while the page is drawn. *)
Inductive download : Type :=
  | PdfFile (file_name : pystr) (data : Fpdf.pdf)
  | MarkdownFile (file_name : pystr) (data : pybytes).

(** Calls that leave the script, in the order they are made. *)
Inductive effect : Type :=
  | ECompletion (rq : chat_request)
  | ECreateUser (username : pystr)
  | EAuthenticate (username : pystr)
  | ESaveHistory (username topic difficulty : pystr) (c : content)
  | ELoadHistory (username : pystr)
  | EMessage (m : ui_message)
  | EDownload (d : download).

(** How a run ends: to the last line, by [st.rerun()], by [st.stop()],
    or with an exception nobody caught. *)
Inductive control : Type :=
  | Done
  | Rerun
  | Stop
  | Uncaught (e : exn).

Record app_state : Type :=
  { a_world : world; a_session : session_state; a_trace : list effect }.

Definition emit (e : effect) (a : app_state) : app_state :=
  {| a_world := a_world a; a_session := a_session a;
     a_trace := a_trace a ++ [e] |}.

Definition with_session (f : session_state -> session_state) (a : app_state)
  : app_state :=
  {| a_world := a_world a; a_session := f (a_session a);
     a_trace := a_trace a |}.

Definition with_world (w : world) (a : app_state) : app_state :=
  {| a_world := w; a_session := a_session a; a_trace := a_trace a |}.

Definition set_authenticated (b : bool) (s : session_state) : session_state :=
  {| authenticated := b; username := username s; history := history s;
     current_topic := current_topic s;
     displayed_content := displayed_content s;
     selected_difficulty := selected_difficulty s |}.

Definition set_username (u : option pystr) (s : session_state) : session_state :=
  {| authenticated := authenticated s; username := u; history := history s;
     current_topic := current_topic s;
     displayed_content := displayed_content s;
     selected_difficulty := selected_difficulty s |}.

Definition set_history (h : list (pystr * entry)) (s : session_state)
  : session_state :=
  {| authenticated := authenticated s; username := username s;
     history := Some h; current_topic := current_topic s;
     displayed_content := displayed_content s;
     selected_difficulty := selected_difficulty s |}.

Definition set_current_topic (t : option pystr) (s : session_state)
  : session_state :=
  {| authenticated := authenticated s; username := username s;
     history := history s; current_topic := Some t;
     displayed_content := displayed_content s;
     selected_difficulty := selected_difficulty s |}.

Definition set_displayed_content (d : displayed) (s : session_state)
  : session_state :=
  {| authenticated := authenticated s; username := username s;
     history := history s; current_topic := current_topic s;
     displayed_content := Some d;
     selected_difficulty := selected_difficulty s |}.

Definition set_selected_difficulty (d : pystr) (s : session_state)
  : session_state :=
  {| authenticated := authenticated s; username := username s;
     history := history s; current_topic := current_topic s;
     displayed_content := displayed_content s;
     selected_difficulty := Some d |}.

(** Reads of keys the initialisation block of [main_app] has set. *)
Definition get_history (s : session_state) : list (pystr * entry) :=
  default [] (history s).

Definition get_current_topic (s : session_state) : option pystr :=
  default None (current_topic s).

Definition no_content : displayed :=
  {| d_pre_class := None; d_in_class := None; d_post_class := None |}.

Definition get_displayed_content (s : session_state) : displayed :=
  default no_content (displayed_content s).

Definition get_selected_difficulty (s : session_state) : pystr :=
  default (py "Beginner") (selected_difficulty s).

(** Python truth of an optional string: None and the empty string are
    false. *)
Definition truthy (s : option pystr) : bool :=
  match s with
  | Some (_ :: _) => true
  | _ => false
  end.

(** ** main_app: the nested generators *)

Definition prompt_pre_class (topic difficulty : pystr) : pystr :=
  py "
        Create a comprehensive pre-class document for "
  ++ Str.lower difficulty
  ++ py " level undergraduate students preparing for placement interviews. 
        Topic: "
  ++ topic
  ++ py "
        
        Document should include:
        1. Brief overview (1 paragraph)
        2. 5 key concepts with concise explanations
        3. Prerequisite knowledge required
        4. Real-world applications (2-3 examples)
        5. Recommended pre-reading (3-5 bullet points)
        6. Common interview questions related to the topic
        
        Format as a structured document with clear headings. Use academic but accessible language.
        ".

Definition prompt_in_class (topic difficulty : pystr) : pystr :=
  py "
        Create a detailed 1-hour lesson plan for teaching "
  ++ topic
  ++ py " to "
  ++ Str.lower difficulty
  ++ py " level students at IIT Bombay.
        
        Structure:
        1. Learning objectives (3-5 bullet points)
        2. Time-allocated session breakdown:
           - Introduction (5 minutes)
           - Core concept explanation (15 minutes)
           - Practical example walkthrough (20 minutes)
           - Student practice activity (15 minutes)
           - Q&A and summary (5 minutes)
        3. Teaching tips and common pitfalls
        4. Required materials/resources
        5. Engagement strategies for each section
        6. Whiteboard diagrams/examples to use
        
        Include specific IIT Bombay context where relevant.
        ".

Definition prompt_post_class (topic difficulty : pystr) : pystr :=
  py "
        Create a post-class document for "
  ++ topic
  ++ py " at "
  ++ Str.lower difficulty
  ++ py " level including:
        
        1. Key takeaways summary (1 paragraph)
        2. 8-question quiz (4 MCQ, 2 true/false, 2 short answer) with solutions
        3. Additional practice problems (3-5) with difficulty ratings
        4. Recommended next steps/resources for further learning
        5. Common mistakes to avoid in interviews
        
        Format with clear section headings. Include IIT-specific examples where appropriate.
        ".

(** The arguments of [client.chat.completions.create]. *)
Definition completion_request (prompt api_key : pystr) : chat_request :=
  {| rq_api_key := api_key; rq_model := py "gpt-4o";
     rq_system := py "You are an expert computer science mentor preparing IIT Bombay students for placements.";
     rq_user := prompt; rq_temperature_tenths := 3 |}.

Section Generation.
(** [api rq] is what [client.chat.completions.create] does with the
    request: it raises, or it answers, and then
    [response.choices[0].message.content] is a string or None. *)
Variable api : chat_request -> result (option pystr).

(** The value of [response.choices[0].message.content.strip()]. *)
Definition completion_text (prompt api_key : pystr) : result pystr :=
  match api (completion_request prompt api_key) with
  | Ok (Some text) => Ok (Str.strip text)
  | Ok None => Raise AttributeError
  | Raise e => Raise e
  end.

Definition generate_document (a : app_state) (prompt api_key : pystr)
  : result pystr * app_state :=
  (completion_text prompt api_key,
   emit (ECompletion (completion_request prompt api_key)) a).

Definition generate_pre_class (a : app_state) (topic difficulty api_key : pystr)
  : result pystr * app_state :=
  generate_document a (prompt_pre_class topic difficulty) api_key.

Definition generate_in_class (a : app_state) (topic difficulty api_key : pystr)
  : result pystr * app_state :=
  generate_document a (prompt_in_class topic difficulty) api_key.

Definition generate_post_class (a : app_state) (topic difficulty api_key : pystr)
  : result pystr * app_state :=
  generate_document a (prompt_post_class topic difficulty) api_key.

End Generation.

(** ** main_app: drawing the download buttons *)

(** The two download buttons of one tab.  [create_pdf] and
    [create_markdown] run while the buttons are drawn. *)
Definition download_buttons (kind topic : pystr) (text : option pystr)
  (a : app_state) : control * app_state :=
  match text with
  | None => (Uncaught AttributeError, a)
  | Some txt =>
      let base := kind ++ py "_" ++ topic in
      let a := emit (EDownload (PdfFile (base ++ py ".pdf") (create_pdf txt base))) a in
      match create_markdown txt base with
      | Ok bs => (Done, emit (EDownload (MarkdownFile (base ++ py ".md") bs)) a)
      | Raise e => (Uncaught e, a)
      end
  end.

Definition display_content (a : app_state) : control * app_state :=
  let d := get_displayed_content (a_session a) in
  if negb (truthy (d_pre_class d)) then (Done, a)
  else
    let topic :=
      match get_current_topic (a_session a) with
      | Some (c :: t) => c :: t
      | _ => py "current_topic"
      end in
    match download_buttons (py "pre_class") topic (d_pre_class d) a with
    | (Done, a) =>
        match download_buttons (py "in_class") topic (d_in_class d) a with
        | (Done, a) => download_buttons (py "post_class") topic (d_post_class d) a
        | stopped => stopped
        end
    | stopped => stopped
    end.

(** ** auth_ui and main_app *)

(** [re.match("^[a-zA-Z0-9_]{3,20}$", s)]: [$] also matches just before
    a newline that ends the string. *)
Definition is_word_char (c : Z) : bool :=
  ((97 <=? c) && (c <=? 122)) || ((65 <=? c) && (c <=? 90))
  || ((48 <=? c) && (c <=? 57)) || (c =? 95).

Definition word_3_20 (s : pystr) : bool :=
  (3 <=? Z.of_nat (length s)) && (Z.of_nat (length s) <=? 20)
  && forallb is_word_char s.

Definition username_format_ok (s : pystr) : bool :=
  word_3_20 s
  || match rev s with
     | 10 :: r => word_3_20 (rev r)
     | _ => false
     end.

Section App.
Context `{PasswordHash}.
Variable api : chat_request -> result (option pystr).

(** [salt] is the salt a signup in this run would draw. *)
Definition auth_ui (salt : pystr) (wd : widgets) (a : app_state)
  : control * app_state :=
  match clicked wd with
  | Some LoginBtn =>
      let a := emit (EAuthenticate (login_user wd)) a in
      match authenticate_user (a_world a) (login_user wd) (login_pass wd) with
      | Raise e => (Uncaught e, a)
      | Ok true =>
          let a := with_session (set_authenticated true) a in
          let a := with_session (set_username (Some (login_user wd))) a in
          (Rerun, a)
      | Ok false => (Done, emit (EMessage ErrInvalidCredentials) a)
      end
  | Some CreateAccountBtn =>
      if bool_decide (new_user wd = []) || bool_decide (new_pass wd = [])
      then (Done, emit (EMessage ErrCredentialsRequired) a)
      else if negb (bool_decide (new_pass wd = confirm_pass wd))
      then (Done, emit (EMessage ErrPasswordMismatch) a)
      else if negb (username_format_ok (new_user wd))
      then (Done, emit (EMessage ErrUsernameFormat) a)
      else if Z.of_nat (length (new_pass wd)) <? 8
      then (Done, emit (EMessage ErrPasswordTooShort) a)
      else
        let a := emit (ECreateUser (new_user wd)) a in
        match create_user (a_world a) salt (new_user wd) (new_pass wd) with
        | (Raise e, _) => (Uncaught e, a)
        | (Ok true, w') => (Done, emit (EMessage OkAccountCreated) (with_world w' a))
        | (Ok false, w') => (Done, emit (EMessage ErrUsernameExists) (with_world w' a))
        end
  | _ => (Done, a)
  end.

(** The four [if ... not in st.session_state] blocks that open
    [main_app]. *)
Definition initialise (u : pystr) (a : app_state) : result unit * app_state :=
  let loaded :=
    match history (a_session a) with
    | Some _ => (Ok tt, a)
    | None =>
        let a := emit (ELoadHistory u) a in
        match load_history_from_db (a_world a) u with
        | Ok h => (Ok tt, with_session (set_history h) a)
        | Raise e => (Raise e, a)
        end
    end in
  match loaded with
  | (Raise e, a) => (Raise e, a)
  | (Ok _, a) =>
      let a := match current_topic (a_session a) with
               | Some _ => a
               | None => with_session (set_current_topic None) a
               end in
      let a := match displayed_content (a_session a) with
               | Some _ => a
               | None => with_session (set_displayed_content no_content) a
               end in
      let a := match selected_difficulty (a_session a) with
               | Some _ => a
               | None => with_session (set_selected_difficulty (py "Beginner")) a
               end in
      (Ok tt, a)
  end.

(** The body of [if st.button("Load Selected Topic")]. *)
Definition load_selected_topic (wd : widgets) (a : app_state)
  : control * app_state :=
  let selected_topic := history_select wd in
  let a := with_session (set_current_topic (Some selected_topic)) a in
  match Dict.get selected_topic (get_history (a_session a)) with
  | None => (Uncaught KeyError, a)
  | Some h =>
      let a := with_session (set_displayed_content
                 {| d_pre_class := Some (e_pre_class h);
                    d_in_class := Some (e_in_class h);
                    d_post_class := Some (e_post_class h) |}) a in
      let a := with_session (set_selected_difficulty (e_difficulty h)) a in
      (Rerun, a)
  end.

(** The body of [if st.button("Clear History")]. *)
Definition clear_history (a : app_state) : control * app_state :=
  let a := with_session (set_history []) a in
  let a := with_session (set_current_topic None) a in
  let a := with_session (set_displayed_content no_content) a in
  let a := with_session (set_selected_difficulty (py "Beginner")) a in
  (Rerun, a).

(** The body of [if st.button("Logout")]. *)
Definition logout (a : app_state) : control * app_state :=
  let a := with_session (set_authenticated false) a in
  let a := with_session (set_username None) a in
  (Rerun, a).

(** The [try] block of the generation flow, up to [st.success]. *)
Definition generate_materials (now : Datetime.datetime) (u current_topic api_key : pystr)
  (a : app_state) : result unit * app_state :=
  let difficulty := get_selected_difficulty (a_session a) in
  match generate_pre_class api a current_topic difficulty api_key with
  | (Raise e, a) => (Raise e, a)
  | (Ok pre_class_content, a) =>
  match generate_in_class api a current_topic difficulty api_key with
  | (Raise e, a) => (Raise e, a)
  | (Ok in_class_content, a) =>
  match generate_post_class api a current_topic difficulty api_key with
  | (Raise e, a) => (Raise e, a)
  | (Ok post_class_content, a) =>
      let a := with_session (set_displayed_content
                 {| d_pre_class := Some pre_class_content;
                    d_in_class := Some in_class_content;
                    d_post_class := Some post_class_content |}) a in
      let a := with_session (set_current_topic (Some current_topic)) a in
      let c := {| pre_class := pre_class_content;
                  in_class := in_class_content;
                  post_class := post_class_content |} in
      let a := emit (ESaveHistory u current_topic difficulty c) a in
      match save_history_to_db (a_world a) now u current_topic difficulty c with
      | (Raise e, _) => (Raise e, a)
      | (Ok _, w') =>
          let a := with_world w' a in
          let a := emit (ELoadHistory u) a in
          match load_history_from_db (a_world a) u with
          | Raise e => (Raise e, a)
          | Ok h =>
              let a := with_session (set_history h) a in
              (Ok tt, emit (EMessage OkGenerated) a)
          end
      end
  end end end.

(** [if generate_btn:] with its two guards and the [except] clause. *)
Definition generation_flow (now : Datetime.datetime) (u : pystr) (wd : widgets)
  (a : app_state) : control * app_state :=
  let current_topic := topic_input wd in
  if bool_decide (current_topic = []) then (Stop, emit (EMessage WarnNoTopic) a)
  else if bool_decide (api_key_input wd = []) then (Stop, emit (EMessage WarnNoApiKey) a)
  else
    match generate_materials now u current_topic (api_key_input wd) a with
    | (Ok _, a) => (Rerun, a)
    | (Raise e, a) =>
        (Done, emit (EMessage InfoCheckApiKey) (emit (EMessage (ErrGenerating e)) a))
    end.

(** One run of [main_app] for the logged-in user [u]. *)
Definition main_app (now : Datetime.datetime) (u : pystr) (wd : widgets)
  (a : app_state) : control * app_state :=
  match initialise u a with
  | (Raise e, a) => (Uncaught e, a)
  | (Ok _, a) =>
      let has_history :=
        match get_history (a_session a) with [] => false | _ :: _ => true end in
      if has_history && bool_decide (clicked wd = Some LoadTopicBtn)
      then load_selected_topic wd a
      else
        let a := if has_history then a else emit (EMessage InfoNoHistory) a in
        if bool_decide (clicked wd = Some ClearHistoryBtn) then clear_history a
        else if bool_decide (clicked wd = Some LogoutBtn) then logout a
        else
          let generated :=
            if bool_decide (clicked wd = Some GenerateBtn)
            then generation_flow now u wd a
            else (Done, a) in
          match generated with
          | (Done, a) =>
              let d := get_displayed_content (a_session a) in
              if truthy (d_pre_class d) && truthy (d_in_class d)
                 && truthy (d_post_class d)
              then display_content a
              else (Done, a)
          | stopped => stopped
          end
  end.

(** The flow control at the end of the module.  [authenticated] is only
    ever set together with a user name. *)
Definition script (now : Datetime.datetime) (salt : pystr) (wd : widgets)
  (a : app_state) : control * app_state :=
  if authenticated (a_session a) then
    match username (a_session a) with
    | Some u => main_app now u wd a
    | None => (Done, a)
    end
  else auth_ui salt wd a.

End App.

(** A browser session that has not run the script yet. *)
Definition fresh_session : session_state :=
  {| authenticated := false; username := None; history := None;
     current_topic := None; displayed_content := None;
     selected_difficulty := None |}.

(** * Vocabulary of the properties *)

(** ** Export renderers *)

(** A heading line "ends with a colon or starts with a hash mark". *)
Definition ends_with_colon (s : list Z) : Prop := exists p, s = p ++ [58].
Definition starts_with_hash (s : list Z) : Prop := exists t, s = 35 :: t.

Definition heading_font : Fpdf.font :=
  {| Fpdf.family := py "Arial"; Fpdf.style := py "B"; Fpdf.size := 14 |}.
Definition body_font : Fpdf.font :=
  {| Fpdf.family := py "Arial"; Fpdf.style := []; Fpdf.size := 12 |}.

(** Each character is kept if one latin-1 byte holds it and is '?'
    otherwise. *)
Definition placeholder_replaced (line txt : list Z) : Prop :=
  Forall2 (fun c d => (c <= 255 /\ d = c) \/ (255 < c /\ d = 63)) line txt.

(** How a line shows in the document: a heading is one unwrapped bold
    cell, anything else a wrapped cell in the body font. *)
Definition rendered_as (heading : list Z -> Prop) (line : list Z) (it : Fpdf.item)
  : Prop :=
  exists txt, placeholder_replaced line txt /\
    ((heading line /\ it = Fpdf.Cell heading_font 200 10 txt true)
     \/ (~ heading line /\ it = Fpdf.MultiCell body_font 0 8 txt)).

Definition literal_heading (line : list Z) : Prop :=
  ends_with_colon line \/ starts_with_hash line.

Definition stripped_heading (line : list Z) : Prop :=
  ends_with_colon (Str.strip line) \/ starts_with_hash (Str.strip line).

Definition item_of_line (line : list Z) : Fpdf.item :=
  if is_heading line
  then Fpdf.Cell heading_font 200 10 (clean_text line) true
  else Fpdf.MultiCell body_font 0 8 (clean_text line).


(** ** Vocabulary of the store properties *)

(** The database the persistence functions open. *)
Definition store (w : world) : Sql.database := connect w (py "prepclass.db").


Definition history_rows (w : world) : list Sql.history_row :=
  match Sql.history (store w) with Some rows => rows | None => [] end.





Definition one_record_per_topic (rows : list Sql.history_row) : Prop :=
  forall u t, (length (List.filter (Sql.history_match u t) rows) <= 1)%nat.

(** One call of [save_history_to_db], with the clock reading it sees. *)
Record upsert_call : Type :=
  { uc_now : Datetime.datetime; uc_username : list Z; uc_topic : list Z;
    uc_difficulty : list Z; uc_content : content }.

Definition upsert (w : world) (c : upsert_call) : world :=
  snd (save_history_to_db w (uc_now c) (uc_username c) (uc_topic c)
         (uc_difficulty c) (uc_content c)).

Definition upserts (w : world) (cs : list upsert_call) : world :=
  fold_left upsert cs w.

(** The two functions that write to the store. *)
Inductive store_op : Type :=
  | DoCreateUser (salt username password : list Z)
  | DoSaveHistory (c : upsert_call).

Definition run_op `{PasswordHash} (w : world) (op : store_op) : world :=
  match op with
  | DoCreateUser salt username password =>
      snd (create_user w salt username password)
  | DoSaveHistory c => upsert w c
  end.





(** ** Vocabulary of the path properties *)

(** The file the persistence functions open and the file [init_db]
    creates the tables in. *)
Definition ops_file (w : world) : list Z := resolve (cwd w) (py "prepclass.db").

Definition tables_exist (db : Sql.database) : Prop :=
  is_Some (Sql.users db) /\ is_Some (Sql.history db).



(** ** Vocabulary of the controller properties *)

(** Calls that write to the store. *)
Definition is_store_write (e : effect) : Prop :=
  match e with
  | ESaveHistory _ _ _ _ | ECreateUser _ => True
  | _ => False
  end.

(** From [a] to [a'] the files are untouched and no call that writes to
    the store was made. *)
Definition store_untouched (a a' : app_state) : Prop :=
  a_world a' = a_world a /\
  exists added, a_trace a' = a_trace a ++ added
                /\ Forall (fun e => ~ is_store_write e) added.

(** At least one of the three document-generation calls of the
    generation flow raises. *)
Definition generation_fails (api : chat_request -> result (option (list Z)))
  (topic difficulty api_key : list Z) : Prop :=
  (exists e, completion_text api (prompt_pre_class topic difficulty) api_key = Raise e)
  \/ (exists e, completion_text api (prompt_in_class topic difficulty) api_key = Raise e)
  \/ (exists e, completion_text api (prompt_post_class topic difficulty) api_key = Raise e).

(** The state in which the script starts for [u] in a new browser
    session, after a login. *)
Definition logged_in (u : list Z) (w : world) : app_state :=
  {| a_world := w;
     a_session := set_username (Some u) (set_authenticated true fresh_session);
     a_trace := [] |}.

(** ** Values for the examples *)

(** A handler for the examples: the hash is the password, a '$' and the
    salt, and verification looks for the password and the '$' in front. *)
Definition demo_hash : PasswordHash :=
  {| pbkdf2_hash := fun salt password => password ++ 36 :: salt;
     pbkdf2_verify := fun password hashed => Str.startswith (password ++ [36]) hashed |}.

(** A working directory outside Streamlit Cloud, after [init_db]. *)
Definition demo_world : world :=
  init_db {| cwd := py "/home/mentor/app"; files := ∅ |}.

Definition at_minute (y mo d h mi : Z) : Datetime.datetime :=
  {| Datetime.year := y; Datetime.month := mo; Datetime.day := d;
     Datetime.hour := h; Datetime.minute := mi;
     Datetime.second := 0; Datetime.microsecond := 0 |}.

Definition demo_content (tag : string) : content :=
  {| pre_class := py "pre " ++ py tag; in_class := py "in " ++ py tag;
     post_class := py "post " ++ py tag |}.

Definition demo_call (t : Datetime.datetime) (topic difficulty : string) : upsert_call :=
  {| uc_now := t; uc_username := py "mentor1"; uc_topic := py topic;
     uc_difficulty := py difficulty; uc_content := demo_content topic |}.

(** Two topics generated on consecutive days. *)
Definition demo_history : world :=
  upserts demo_world
    [demo_call (at_minute 2024 1 1 10 0) "Recursion" "Beginner";
     demo_call (at_minute 2024 1 2 9 0) "SQL Joins" "Beginner"].

Definition demo_widgets (b : button) : widgets :=
  {| login_user := []; login_pass := [];
     new_user := []; new_pass := []; confirm_pass := [];
     api_key_input := py "sk-demo"; topic_input := py "Recursion";
     history_select := py "Recursion";
     clicked := Some b |}.

(** An endpoint that refuses every request. *)
Definition demo_api_down (rq : chat_request) : result (option (list Z)) :=
  Raise (APIError (py "401 Unauthorized")).

(** The list of code points as a Rocq string, for reading examples. *)
Definition as_string (s : list Z) : string :=
  string_of_list_ascii (List.map (fun c => ascii_of_N (Z.to_N c)) s).

(** * Properties *)

(** ** UTF-8 *)

Module CodecFacts.
Import Codec.

Lemma hi_lo (c : Z) : c = 64 * hi6 c + lo6 c /\ 0 <= lo6 c < 64.
Proof.
  unfold hi6, lo6. split.
  - apply Z.div_mod. lia.
  - apply Z.mod_pos_bound. lia.
Qed.

Ltac known_bool :=
  repeat match goal with
  | |- context [Z.leb ?a ?b] =>
      first [ rewrite (proj2 (Z.leb_le a b)) by lia
            | rewrite (proj2 (Z.leb_gt a b)) by lia ]
  | |- context [Z.ltb ?a ?b] =>
      first [ rewrite (proj2 (Z.ltb_lt a b)) by lia
            | rewrite (proj2 (Z.ltb_ge a b)) by lia ]
  end.

Lemma decode_utf8_char (c : Z) (rest : list Z) :
  scalar_value c ->
  decode_utf8 (utf8_char c ++ rest) = (s ← decode_utf8 rest; Ok (c :: s)).
Proof.
  intros [[Hlo Hhi] Hs]. unfold is_surrogate in Hs.
  apply andb_false_iff in Hs.
  rewrite Z.leb_gt, Z.leb_gt in Hs.
  pose proof (hi_lo c) as [E1 B1].
  pose proof (hi_lo (hi6 c)) as [E2 B2].
  pose proof (hi_lo (hi6 (hi6 c))) as [E3 B3].
  unfold utf8_char.
  destruct (Z.ltb_spec c 128) as [L1|L1];
    [|destruct (Z.ltb_spec c 2048) as [L2|L2];
      [|destruct (Z.ltb_spec c 65536) as [L3|L3]]];
    cbn [app decode_utf8].
  - known_bool. reflexivity.
  - replace ((192 + hi6 c - 192) * 64 + (128 + lo6 c - 128)) with c by lia.
    unfold is_cont. known_bool. reflexivity.
  - replace (((224 + hi6 (hi6 c) - 224) * 64 + (128 + lo6 (hi6 c) - 128)) * 64
             + (128 + lo6 c - 128)) with c by lia.
    unfold is_cont, is_surrogate.
    destruct Hs; known_bool; reflexivity.
  - replace ((((240 + hi6 (hi6 (hi6 c)) - 240) * 64
               + (128 + lo6 (hi6 (hi6 c)) - 128)) * 64
              + (128 + lo6 (hi6 c) - 128)) * 64 + (128 + lo6 c - 128))
      with c by lia.
    unfold is_cont. known_bool. reflexivity.
Qed.

Lemma utf8_char_bytes (c : Z) :
  code_point c -> Forall (fun b => 0 <= b <= 255) (utf8_char c).
Proof.
  intros [Hlo Hhi].
  pose proof (hi_lo c) as [E1 B1].
  pose proof (hi_lo (hi6 c)) as [E2 B2].
  pose proof (hi_lo (hi6 (hi6 c))) as [E3 B3].
  unfold utf8_char.
  destruct (Z.ltb_spec c 128); [|destruct (Z.ltb_spec c 2048); [|destruct (Z.ltb_spec c 65536)]];
    repeat constructor; lia.
Qed.

Lemma encode_utf8_total (s : list Z) :
  Forall (fun c => is_surrogate c = false) s ->
  encode_utf8 s = Ok (concat (List.map utf8_char s)).
Proof.
  induction 1 as [|c s Hc _ IH]; [reflexivity|].
  cbn [encode_utf8]. rewrite Hc, IH. reflexivity.
Qed.

Lemma decode_encode_utf8 (s : list Z) :
  Forall scalar_value s ->
  decode_utf8 (concat (List.map utf8_char s)) = Ok s.
Proof.
  induction 1 as [|c s Hc _ IH]; [reflexivity|].
  cbn [List.map concat]. rewrite decode_utf8_char by exact Hc.
  rewrite IH. reflexivity.
Qed.

Lemma encode_utf8_surrogate (s : list Z) :
  Exists (fun c => is_surrogate c = true) s ->
  encode_utf8 s = Raise UnicodeEncodeError.
Proof.
  induction 1 as [c s Hc|c s _ IH]; cbn [encode_utf8].
  - rewrite Hc. reflexivity.
  - rewrite IH. destruct (is_surrogate c); reflexivity.
Qed.
End CodecFacts.

(** ** strip and split *)

Module StrFacts.
Import Str.

Lemma endswith_char_spec (s : list Z) (c : Z) :
  endswith_char s c = true <-> exists p, s = p ++ [c].
Proof.
  unfold endswith_char. split.
  - destruct (rev s) as [|d r] eqn:E; [discriminate|].
    intros Hd. apply Z.eqb_eq in Hd. subst d.
    exists (rev r). rewrite <- (rev_involutive s), E. reflexivity.
  - intros [p ->]. rewrite rev_app_distr. cbn. apply Z.eqb_refl.
Qed.

Lemma first_is_spec (s : list Z) (c : Z) :
  first_is s c = true <-> exists t, s = c :: t.
Proof.
  unfold first_is. split.
  - destruct s as [|d t]; [discriminate|].
    intros Hd. apply Z.eqb_eq in Hd. subst d. eauto.
  - intros [t ->]. apply Z.eqb_refl.
Qed.

Lemma lstrip_spec (s : list Z) :
  exists l, s = l ++ lstrip s /\ Forall (fun c => isspace c = true) l
            /\ (forall c t, lstrip s = c :: t -> isspace c = false).
Proof.
  induction s as [|c s (l & E & Hl & Hn)]; cbn [lstrip].
  - exists []. repeat split; [constructor|discriminate].
  - destruct (isspace c) eqn:Hc.
    + exists (c :: l). repeat split; [cbn; congruence|constructor; assumption|exact Hn].
    + exists []. repeat split; [constructor|]. intros d t [= <- _]. exact Hc.
Qed.

Lemma lstrip_idem_nonspace (s : list Z) :
  (forall c t, s = c :: t -> isspace c = false) -> lstrip s = s.
Proof.
  destruct s as [|c t]; [reflexivity|]. intros Hn. cbn.
  rewrite (Hn c t eq_refl). reflexivity.
Qed.

(** [strip] removes a run of whitespace at each end, and nothing else. *)
Lemma strip_spec (s : list Z) :
  exists l r, s = l ++ strip s ++ r
    /\ Forall (fun c => isspace c = true) l
    /\ Forall (fun c => isspace c = true) r
    /\ (forall c t, strip s = c :: t -> isspace c = false)
    /\ (forall p c, strip s = p ++ [c] -> isspace c = false).
Proof.
  destruct (lstrip_spec s) as (l & El & Hl & Hfirst).
  destruct (lstrip_spec (rev (lstrip s))) as (r' & Er & Hr & Hlast).
  assert (Es : lstrip s = strip s ++ rev r').
  { unfold strip, rstrip. rewrite <- rev_app_distr, <- Er.
    symmetry. apply rev_involutive. }
  exists l, (rev r'). repeat split.
  - rewrite <- Es. exact El.
  - exact Hl.
  - apply List.Forall_rev. exact Hr.
  - intros c t Hc. destruct (strip s) as [|c' t'] eqn:E; [discriminate|].
    injection Hc as -> ->. apply (Hfirst c (t ++ rev r')). rewrite Es. reflexivity.
  - intros p c Hc. apply (Hlast c (rev p)).
    unfold strip, rstrip in Hc.
    rewrite <- (rev_involutive (lstrip (rev (lstrip s)))), Hc, rev_app_distr.
    reflexivity.
Qed.

Lemma split_nonempty (sep : Z) (s : list Z) : split sep s <> [].
Proof.
  destruct s as [|c s]; cbn [split]; [discriminate|].
  destruct (c =? sep); [discriminate|].
  destruct (split sep s); discriminate.
Qed.

Lemma split_join (sep : Z) (s : list Z) : join sep (split sep s) = s.
Proof.
  induction s as [|c s IH]; [reflexivity|].
  cbn [split]. pose proof (split_nonempty sep s) as Hne.
  destruct (split sep s) as [|l ls] eqn:E; [congruence|].
  destruct (Z.eqb_spec c sep) as [->|Hc].
  - cbn [join app]. f_equal. exact IH.
  - destruct ls; cbn [join app] in *; congruence.
Qed.

Lemma split_no_sep (sep : Z) (s : list Z) :
  Forall (fun l => ~ In sep l) (split sep s).
Proof.
  induction s as [|c s IH]; cbn [split].
  - repeat constructor. intros [].
  - destruct (Z.eqb_spec c sep) as [->|Hne].
    + constructor; [intros []|exact IH].
    + destruct (split sep s) as [|l ls]; [repeat constructor; intros [?|[]]; congruence|].
      inversion IH as [|? ? Hl Hls]; subst. constructor; [|exact Hls].
      intros [?|?]; [congruence|auto].
Qed.

End StrFacts.

(** ** Export renderers *)

Module Exports.

Lemma is_heading_spec (line : list Z) :
  is_heading line = true <-> stripped_heading line.
Proof.
  unfold is_heading, stripped_heading, ends_with_colon, starts_with_hash.
  rewrite orb_true_iff, andb_true_iff.
  rewrite StrFacts.endswith_char_spec, StrFacts.first_is_spec.
  split.
  - intros [Hc|[_ Hh]]; [left|right]; assumption.
  - intros [Hc|[t Ht]]; [left; assumption|right].
    rewrite Ht. eauto.
Qed.

Lemma clean_text_replaced (line : list Z) :
  placeholder_replaced line (clean_text line).
Proof.
  unfold placeholder_replaced, clean_text, Codec.decode_latin1,
    Codec.encode_latin1_replace.
  induction line as [|c line IH]; constructor; [|exact IH].
  unfold Codec.latin1_replace. destruct (Z.leb_spec c 255); [left|right]; lia.
Qed.

Lemma render_line_items (p : Fpdf.pdf) (line : list Z) :
  Fpdf.cur_font p = body_font ->
  Fpdf.cur_font (render_line p line) = body_font /\
  Fpdf.items (render_line p line) = Fpdf.items p ++ [item_of_line line].
Proof.
  intros Hf. unfold render_line, item_of_line.
  destruct (is_heading line); cbn.
  - split; reflexivity.
  - rewrite Hf. split; reflexivity.
Qed.

Lemma fold_render_items (lines : list (list Z)) (p : Fpdf.pdf) :
  Fpdf.cur_font p = body_font ->
  Fpdf.items (fold_left render_line lines p)
  = Fpdf.items p ++ List.map item_of_line lines.
Proof.
  revert p. induction lines as [|l lines IH]; intros p Hf; cbn [fold_left List.map].
  - symmetry. apply app_nil_r.
  - destruct (render_line_items p l Hf) as [Hf' Hi].
    rewrite (IH _ Hf'), Hi, <- app_assoc. reflexivity.
Qed.

Lemma create_pdf_items (content filename : list Z) :
  Fpdf.items (create_pdf content filename)
  = List.map item_of_line (Str.split 10 content).
Proof.
  unfold create_pdf. rewrite fold_render_items; reflexivity.
Qed.

Lemma item_of_line_rendered (line : list Z) :
  rendered_as stripped_heading line (item_of_line line).
Proof.
  exists (clean_text line). split; [apply clean_text_replaced|].
  unfold item_of_line. destruct (is_heading line) eqn:E.
  - left. split; [apply is_heading_spec; exact E|reflexivity].
  - right. split; [|reflexivity].
    intros Hh. apply is_heading_spec in Hh. congruence.
Qed.

(** C8 (as amended): [create_pdf] splits the input at the newline
    characters and draws one item per line, in order; a line is drawn as
    a bold size-14 unwrapped cell if and only if, once leading and
    trailing whitespace is stripped, it ends with a colon or starts with
    a hash mark, and as wrapped body text otherwise; in either case every
    character above 0xFF is replaced by '?' and the others are kept. *)
Theorem create_pdf_renders_lines (content filename : list Z) :
  let lines := Str.split 10 content in
  Str.join 10 lines = content /\
  Forall (fun l => ~ In 10 l) lines /\
  Forall2 (rendered_as stripped_heading) lines
          (Fpdf.items (create_pdf content filename)).
Proof.
  cbn zeta. split; [apply StrFacts.split_join|].
  split; [apply StrFacts.split_no_sep|].
  rewrite create_pdf_items.
  induction (Str.split 10 content) as [|l ls IH]; cbn [List.map]; constructor.
  - apply item_of_line_rendered.
  - exact IH.
Qed.

(** C8 as stated fails: the line "  # Intro" neither ends with a colon
    nor starts with a hash mark, yet [create_pdf] draws it as a heading. *)
Lemma indented_hash_line_is_heading :
  let content := py "  # Intro" in
  Str.split 10 content = [content] /\
  ~ literal_heading content /\
  Fpdf.items (create_pdf content [])
  = [Fpdf.Cell heading_font 200 10 content true] /\
  ~ Forall2 (rendered_as literal_heading) (Str.split 10 content)
            (Fpdf.items (create_pdf content [])).
Proof.
  cbn zeta.
  assert (Hn : ~ literal_heading (py "  # Intro")).
  { intros [[p Hp]|[t Ht]]; [|discriminate Ht].
    apply (f_equal (@rev Z)) in Hp. rewrite rev_app_distr in Hp.
    discriminate Hp. }
  split; [reflexivity|]. split; [exact Hn|]. split; [reflexivity|].
  intros HF. inversion HF as [|? ? ? ? Hr _]; subst.
  destruct Hr as (txt & _ & [[Hh _]|[_ Hi]]); [exact (Hn Hh)|discriminate Hi].
Qed.

(** C7 (as amended): for every input string of Unicode scalar values
    (no lone surrogate), [create_markdown] returns bytes, and decoding
    them as UTF-8 gives the input back exactly. *)
Theorem create_markdown_round_trip (content filename : list Z) :
  Forall scalar_value content ->
  exists bs, create_markdown content filename = Ok bs
    /\ Forall (fun b => 0 <= b <= 255) bs
    /\ Codec.decode_utf8 bs = Ok content.
Proof.
  intros Hs. exists (concat (List.map Codec.utf8_char content)).
  split; [|split].
  - apply CodecFacts.encode_utf8_total.
    eapply Forall_impl; [exact Hs|]. intros c [_ Hc]. exact Hc.
  - induction Hs as [|c s [Hc _] _ IH]; cbn [List.map concat]; [constructor|].
    apply Forall_app. split; [apply CodecFacts.utf8_char_bytes; exact Hc|exact IH].
  - apply CodecFacts.decode_encode_utf8. exact Hs.
Qed.

(** C7 on the string "Caf\u00e9 \u20ac \U0001f600", given by its code points. *)
Lemma create_markdown_round_trip_witness :
  exists bs, create_markdown [67; 97; 102; 233; 32; 8364; 32; 128512] (py "pre_class_t") = Ok bs
    /\ Forall (fun b => 0 <= b <= 255) bs
    /\ Codec.decode_utf8 bs = Ok [67; 97; 102; 233; 32; 8364; 32; 128512].
Proof.
  apply create_markdown_round_trip.
  repeat constructor; vm_compute; congruence.
Defined.

(** C7 as stated fails: the one-character string holding the lone
    surrogate U+D800 is a Python string, and [create_markdown] raises
    UnicodeEncodeError on it instead of returning bytes. *)
Lemma create_markdown_lone_surrogate :
  Forall code_point [55296] /\
  create_markdown [55296] (py "pre_class_t") = Raise UnicodeEncodeError /\
  ~ exists bs, create_markdown [55296] (py "pre_class_t") = Ok bs
       /\ Codec.decode_utf8 bs = Ok [55296].
Proof.
  split; [repeat constructor; lia|]. split; [reflexivity|].
  intros (bs & Hbs & _). discriminate Hbs.
Qed.

End Exports.

(** ** Timestamps *)

Module Timestamps.
Import Datetime.

Lemma text_compare_app (a a' b b' : list Z) :
  length a = length a' ->
  Sql.text_compare (a ++ b) (a' ++ b')
  = cmp_then (Sql.text_compare a a') (Sql.text_compare b b').
Proof.
  revert a'. induction a as [|x a IH]; intros [|y a'] Hl; try discriminate Hl.
  - cbn. destruct (Sql.text_compare b b'); reflexivity.
  - cbn. destruct (x ?= y); try reflexivity.
    apply IH. cbn in Hl. congruence.
Qed.

Lemma text_compare_cons (x : Z) (a b : list Z) :
  Sql.text_compare (x :: a) (x :: b) = Sql.text_compare a b.
Proof. cbn. rewrite Z.compare_refl. reflexivity. Qed.

Lemma compare_eq_of (a b : Z) (c : comparison) :
  match c with Eq => a = b | Lt => a < b | Gt => a > b end -> (a ?= b) = c.
Proof.
  destruct c; intros Hc.
  - apply Z.compare_eq_iff. exact Hc.
  - exact Hc.
  - exact Hc.
Qed.

Lemma pad2_compare (m n : Z) :
  0 <= m <= 99 -> 0 <= n <= 99 ->
  Sql.text_compare (pad2 m) (pad2 n) = (m ?= n).
Proof.
  intros Hm Hn. unfold pad2, digit. cbn [Sql.text_compare].
  pose proof (Z.div_mod m 10 ltac:(lia)) as Em.
  pose proof (Z.mod_pos_bound m 10 ltac:(lia)) as Bm.
  pose proof (Z.div_mod n 10 ltac:(lia)) as En.
  pose proof (Z.mod_pos_bound n 10 ltac:(lia)) as Bn.
  symmetry. apply compare_eq_of.
  destruct (Z.compare_spec (48 + m / 10) (48 + n / 10));
    destruct (Z.compare_spec (48 + m mod 10) (48 + n mod 10)); lia.
Qed.

Lemma fmt_Y_four_digits (y : Z) :
  1000 <= y <= 9999 ->
  fmt_Y y = [digit (y / 1000); digit (y / 100 mod 10);
             digit (y / 10 mod 10); digit (y mod 10)].
Proof.
  intros Hy. unfold fmt_Y.
  rewrite !(proj2 (Z.leb_le _ _)) by lia. reflexivity.
Qed.

Lemma fmt_Y_compare (y z : Z) :
  1000 <= y <= 9999 -> 1000 <= z <= 9999 ->
  Sql.text_compare (fmt_Y y) (fmt_Y z) = (y ?= z).
Proof.
  intros Hy Hz. rewrite !fmt_Y_four_digits by assumption.
  unfold digit. cbn [Sql.text_compare].
  symmetry. apply compare_eq_of.
  destruct (Z.compare_spec (48 + y / 1000) (48 + z / 1000));
    destruct (Z.compare_spec (48 + y / 100 mod 10) (48 + z / 100 mod 10));
    destruct (Z.compare_spec (48 + y / 10 mod 10) (48 + z / 10 mod 10));
    destruct (Z.compare_spec (48 + y mod 10) (48 + z mod 10));
    Z.to_euclidean_division_equations; lia.
Qed.

Lemma fmt_Y_length (y : Z) : 1000 <= y <= 9999 -> length (fmt_Y y) = 4%nat.
Proof. intros Hy. rewrite fmt_Y_four_digits by assumption. reflexivity. Qed.

Lemma valid_two_digits (t : datetime) :
  valid t ->
  0 <= month t <= 99 /\ 0 <= day t <= 99 /\ 0 <= hour t <= 99 /\ 0 <= minute t <= 99.
Proof.
  unfold valid, days_in_month. intros (_ & Hm & Hd & Hh & Hmin & _).
  repeat split; try lia.
  destruct (month t =? 2); [destruct (is_leap (year t)); lia|].
  destruct ((month t =? 4) || (month t =? 6) || (month t =? 9) || (month t =? 11)); lia.
Qed.

(** Comparing two stored timestamps compares the five printed fields
    from the year down. *)
Lemma strftime_compare (a b : datetime) :
  valid a -> valid b -> 1000 <= year a -> 1000 <= year b ->
  Sql.text_compare (strftime a) (strftime b)
  = cmp_then (year a ?= year b)
    (cmp_then (month a ?= month b)
    (cmp_then (day a ?= day b)
    (cmp_then (hour a ?= hour b) (minute a ?= minute b)))).
Proof.
  intros Va Vb Ya Yb.
  destruct (valid_two_digits a Va) as (Ma & Da & Ha & Na).
  destruct (valid_two_digits b Vb) as (Mb & Db & Hb & Nb).
  assert (Ya' : 1000 <= year a <= 9999) by (unfold valid in Va; lia).
  assert (Yb' : 1000 <= year b <= 9999) by (unfold valid in Vb; lia).
  unfold strftime.
  rewrite text_compare_app by (rewrite !fmt_Y_length by assumption; reflexivity).
  rewrite fmt_Y_compare by assumption. f_equal.
  rewrite text_compare_cons.
  rewrite (text_compare_app (pad2 (month a)) (pad2 (month b))) by reflexivity.
  rewrite pad2_compare by assumption. f_equal.
  rewrite text_compare_cons.
  rewrite (text_compare_app (pad2 (day a)) (pad2 (day b))) by reflexivity.
  rewrite pad2_compare by assumption. f_equal.
  rewrite text_compare_cons.
  rewrite (text_compare_app (pad2 (hour a)) (pad2 (hour b))) by reflexivity.
  rewrite pad2_compare by assumption. f_equal.
  rewrite text_compare_cons. apply pad2_compare; assumption.
Qed.

Lemma compare_minute_precision (a b : datetime) :
  minute_precision a -> minute_precision b ->
  compare a b
  = cmp_then (year a ?= year b)
    (cmp_then (month a ?= month b)
    (cmp_then (day a ?= day b)
    (cmp_then (hour a ?= hour b) (minute a ?= minute b)))).
Proof.
  intros [Sa Ua] [Sb Ub]. unfold compare. rewrite Sa, Ua, Sb, Ub. cbn.
  repeat match goal with |- context [?x ?= ?y] => destruct (x ?= y) end;
    reflexivity.
Qed.

Lemma days_before_year_succ (y : Z) :
  days_before_year (y + 1) = days_before_year y + year_length y.
Proof.
  unfold days_before_year, year_length, is_leap.
  replace (y + 1 - 1) with y by lia.
  destruct (Z.eqb_spec (y mod 4) 0), (Z.eqb_spec (y mod 100) 0),
    (Z.eqb_spec (y mod 400) 0); cbn [negb andb orb];
    Z.to_euclidean_division_equations; lia.
Qed.

Lemma days_before_year_mono (y z : Z) :
  y <= z -> days_before_year y <= days_before_year z.
Proof.
  intros H. unfold days_before_year.
  Z.to_euclidean_division_equations; lia.
Qed.

Lemma day_of_year_bounds (y m d : Z) :
  1 <= m <= 12 -> 1 <= d <= days_in_month y m ->
  1 <= days_before_month y m + d <= year_length y.
Proof.
  intros Hm Hd. unfold days_before_month, days_in_month, year_length in *.
  assert (m = 1 \/ m = 2 \/ m = 3 \/ m = 4 \/ m = 5 \/ m = 6 \/ m = 7 \/ m = 8
          \/ m = 9 \/ m = 10 \/ m = 11 \/ m = 12) as Hc by lia.
  destruct (is_leap y);
    repeat (destruct Hc as [->|Hc]; [cbn in *; lia|]); subst; cbn in *; lia.
Qed.

Lemma month_start_mono (y m n d : Z) :
  1 <= m <= 12 -> 1 <= n <= 12 -> m < n -> 1 <= d <= days_in_month y m ->
  days_before_month y m + d <= days_before_month y n.
Proof.
  intros Hm Hn Hlt Hd. unfold days_before_month, days_in_month in *.
  assert (m = 1 \/ m = 2 \/ m = 3 \/ m = 4 \/ m = 5 \/ m = 6 \/ m = 7 \/ m = 8
          \/ m = 9 \/ m = 10 \/ m = 11 \/ m = 12) as Hc by lia.
  assert (n = 1 \/ n = 2 \/ n = 3 \/ n = 4 \/ n = 5 \/ n = 6 \/ n = 7 \/ n = 8
          \/ n = 9 \/ n = 10 \/ n = 11 \/ n = 12) as Hc' by lia.
  destruct (is_leap y);
    repeat (destruct Hc as [->|Hc]);
    repeat (destruct Hc' as [->|Hc']); subst; cbn in *; lia.
Qed.

Lemma toordinal_compare (a b : datetime) :
  valid a -> valid b ->
  (toordinal a ?= toordinal b)
  = cmp_then (year a ?= year b) (cmp_then (month a ?= month b) (day a ?= day b)).
Proof.
  intros (Ya & Ma & Da & _) (Yb & Mb & Db & _). unfold toordinal.
  pose proof (day_of_year_bounds _ _ _ Ma Da) as Ba.
  pose proof (day_of_year_bounds _ _ _ Mb Db) as Bb.
  apply compare_eq_of.
  destruct (Z.compare_spec (year a) (year b)) as [Ey|Ly|Ly]; cbn [cmp_then].
  - rewrite Ey in *.
    destruct (Z.compare_spec (month a) (month b)) as [Em|Lm|Lm]; cbn [cmp_then].
    + rewrite Em. destruct (Z.compare_spec (day a) (day b)); lia.
    + pose proof (month_start_mono _ _ _ _ Ma Mb Lm Da). lia.
    + pose proof (month_start_mono _ _ _ _ Mb Ma Lm Db). lia.
  - pose proof (days_before_year_succ (year a)).
    pose proof (days_before_year_mono (year a + 1) (year b) ltac:(lia)). lia.
  - pose proof (days_before_year_succ (year b)).
    pose proof (days_before_year_mono (year b + 1) (year a) ltac:(lia)). lia.
Qed.

Lemma cmp_then_assoc (a b c : comparison) :
  cmp_then a (cmp_then b c) = cmp_then (cmp_then a b) c.
Proof. destruct a; reflexivity. Qed.

Lemma minutes_compare (a b : datetime) :
  valid a -> valid b -> minute_precision a -> minute_precision b ->
  (minutes a ?= minutes b) = compare a b.
Proof.
  intros Va Vb Pa Pb.
  rewrite compare_minute_precision by assumption.
  replace (cmp_then (year a ?= year b) (cmp_then (month a ?= month b)
             (cmp_then (day a ?= day b)
                (cmp_then (hour a ?= hour b) (minute a ?= minute b)))))
    with (cmp_then (toordinal a ?= toordinal b)
            (cmp_then (hour a ?= hour b) (minute a ?= minute b))).
  2:{ rewrite (toordinal_compare a b Va Vb), <- !cmp_then_assoc. reflexivity. }
  destruct Va as (_ & _ & _ & Ha & Na & _), Vb as (_ & _ & _ & Hb & Nb & _).
  unfold minutes. apply compare_eq_of.
  destruct (Z.compare_spec (toordinal a) (toordinal b)); cbn [cmp_then];
    [destruct (Z.compare_spec (hour a) (hour b)); cbn [cmp_then];
      [destruct (Z.compare_spec (minute a) (minute b))|..]|..]; lia.
Qed.
(** C6: for date-times at minute precision with four-digit years, the
    order in time is the lexicographic order of the "%Y-%m-%d %H:%M"
    strings: t1 is no later than t2 on the time line (and in Python's
    order of datetime objects) exactly when the string of t1 is no
    greater than the string of t2. *)
Theorem strftime_monotonic (t1 t2 : datetime) :
  valid t1 -> valid t2 ->
  minute_precision t1 -> minute_precision t2 ->
  1000 <= year t1 -> 1000 <= year t2 ->
  (minutes t1 <= minutes t2 <-> Sql.text_le (strftime t1) (strftime t2)) /\
  (le t1 t2 <-> Sql.text_le (strftime t1) (strftime t2)).
Proof.
  intros V1 V2 P1 P2 Y1 Y2. unfold le, Sql.text_le.
  rewrite strftime_compare by assumption.
  rewrite <- compare_minute_precision by assumption.
  split; [|reflexivity].
  rewrite <- minutes_compare by assumption. reflexivity.
Qed.

(** C6 on 2024-01-01 10:00 and 2024-01-02 09:00. *)
Lemma strftime_monotonic_witness :
  let t1 := {| year := 2024; month := 1; day := 1; hour := 10; minute := 0;
               second := 0; microsecond := 0 |} in
  let t2 := {| year := 2024; month := 1; day := 2; hour := 9; minute := 0;
               second := 0; microsecond := 0 |} in
  (minutes t1 <= minutes t2 <-> Sql.text_le (strftime t1) (strftime t2)) /\
  (le t1 t2 <-> Sql.text_le (strftime t1) (strftime t2)).
Proof.
  apply strftime_monotonic;
    first [ split; reflexivity
          | unfold valid; cbn; lia
          | cbn; lia ].
Defined.

(** Below year 1000 the C library prints fewer digits and the order is
    lost: 0999-12-31 23:59 is earlier than 1000-01-01 00:00, but its
    string is the greater one. *)
Example three_digit_year_sorts_last :
  let t1 := {| year := 999; month := 12; day := 31; hour := 23; minute := 59;
               second := 0; microsecond := 0 |} in
  let t2 := {| year := 1000; month := 1; day := 1; hour := 0; minute := 0;
               second := 0; microsecond := 0 |} in
  minutes t1 < minutes t2 /\ Sql.text_compare (strftime t1) (strftime t2) = Gt.
Proof. split; reflexivity. Qed.

End Timestamps.

(** ** The stores *)

Module Store.

Lemma connect_commit (w : world) (path : list Z) (db : Sql.database) :
  connect (commit w path db) path = db.
Proof.
  unfold connect, commit. cbn [cwd files].
  rewrite lookup_insert_eq. reflexivity.
Qed.

Lemma store_commit (w : world) (db : Sql.database) :
  store (commit w (py "prepclass.db") db) = db.
Proof. apply connect_commit. Qed.

(** *** History *)

Lemma find_none_filter {A} (f : A -> bool) (l : list A) :
  List.find f l = None <-> List.filter f l = [].
Proof.
  induction l as [|x l IH]; cbn; [tauto|].
  destruct (f x); [split; discriminate|exact IH].
Qed.


Lemma history_match_update (u t : list Z) (id : Z) (d ts p i q : list Z)
  (r : Sql.history_row) :
  Sql.history_match u t (Sql.update_row id d ts p i q r) = Sql.history_match u t r.
Proof.
  unfold Sql.update_row. destruct (Sql.h_id r =? id); reflexivity.
Qed.

Lemma filter_map_update (u t : list Z) (id : Z) (d ts p i q : list Z)
  (rows : list Sql.history_row) :
  List.filter (Sql.history_match u t) (List.map (Sql.update_row id d ts p i q) rows)
  = List.map (Sql.update_row id d ts p i q) (List.filter (Sql.history_match u t) rows).
Proof.
  induction rows as [|r rows IH]; cbn [List.map List.filter]; [reflexivity|].
  rewrite history_match_update. destruct (Sql.history_match u t r); cbn [List.map]; congruence.
Qed.

Lemma history_match_true (u t : list Z) (r : Sql.history_row) :
  Sql.history_match u t r = true <-> Sql.h_username r = u /\ Sql.h_topic r = t.
Proof.
  unfold Sql.history_match. rewrite andb_true_iff, !bool_decide_eq_true. reflexivity.
Qed.

(** What one upsert does to the history table. *)
Inductive upserted (u t d : list Z) (now : Datetime.datetime) (c : content)
  (rows : list Sql.history_row) : list Sql.history_row -> Prop :=
  | upserted_update id :
      Sql.h_id <$> List.find (Sql.history_match u t) rows = Some id ->
      upserted u t d now c rows
        (List.map (Sql.update_row id d (Datetime.strftime now)
                     (pre_class c) (in_class c) (post_class c)) rows)
  | upserted_insert id :
      List.find (Sql.history_match u t) rows = None ->
      upserted u t d now c rows
        (rows ++ [{| Sql.h_id := id; Sql.h_username := u; Sql.h_topic := t;
                     Sql.h_difficulty := d;
                     Sql.h_timestamp := Datetime.strftime now;
                     Sql.h_pre_class := pre_class c;
                     Sql.h_in_class := in_class c;
                     Sql.h_post_class := post_class c |}]).

Lemma save_history_upserted (w : world) (now : Datetime.datetime)
  (u t d : list Z) (c : content) (rows : list Sql.history_row) :
  Sql.history (store w) = Some rows ->
  exists w' rows',
    save_history_to_db w now u t d c = (Ok tt, w')
    /\ Sql.history (store w') = Some rows'
    /\ Sql.users (store w') = Sql.users (store w)
    /\ cwd w' = cwd w
    /\ upserted u t d now c rows rows'.
Proof.
  intros Hrows. unfold save_history_to_db, Sql.select_history_id.
  fold (store w). rewrite Hrows. cbn [Sql.table mbind result_bind].
  destruct (List.find (Sql.history_match u t) rows) as [r|] eqn:Hfind; cbn [fmap option_fmap option_map].
  - unfold Sql.update_history. rewrite Hrows. cbn [Sql.table mbind result_bind].
    eexists _, _. split; [reflexivity|]. rewrite store_commit. cbn.
    repeat split. apply upserted_update. rewrite Hfind. reflexivity.
  - unfold Sql.insert_history. rewrite Hrows. cbn [Sql.table mbind result_bind].
    eexists _, _. split; [reflexivity|]. rewrite store_commit. cbn.
    repeat split. apply upserted_insert. exact Hfind.
Qed.

Lemma upserted_one_record (u t d : list Z) (now : Datetime.datetime) (c : content)
  (rows rows' : list Sql.history_row) :
  upserted u t d now c rows rows' ->
  one_record_per_topic rows -> one_record_per_topic rows'.
Proof.
  intros Hup Hone u' t'. destruct Hup as [id Hid|id Hnone].
  - rewrite filter_map_update, length_map. apply Hone.
  - rewrite List.filter_app, length_app. cbn [List.filter].
    specialize (Hone u' t').
    destruct (Sql.history_match u' t' _) eqn:Hm; cbn [length]; [|lia].
    apply history_match_true in Hm. cbn in Hm. destruct Hm as [<- <-].
    apply find_none_filter in Hnone. rewrite Hnone. cbn. lia.
Qed.





End Store.

(** ** The credential store *)

Module Credentials.
Import Store.

Section WithHash.
Context `{HL : PasswordHashLaws}.









End WithHash.





End Credentials.

(** ** Loading the history *)

Module History.
Import Store.


Lemma text_compare_refl (a : list Z) : Sql.text_compare a a = Eq.
Proof.
  induction a as [|x a IH]; cbn; [reflexivity|].
  rewrite Z.compare_refl. exact IH.
Qed.






(** *** The dict built row by row *)




(** [create_user] leaves the history table alone. *)
Lemma create_user_keeps_history `{PasswordHash} (w : world) (salt u p : list Z) :
  Sql.history (store (snd (create_user w salt u p))) = Sql.history (store w).
Proof.
  unfold create_user, Sql.insert_user. fold (store w).
  destruct (Sql.users (store w)) as [rows|]; cbn [Sql.table mbind result_bind snd];
    [|reflexivity].
  destruct (existsb _ rows); cbn [snd]; [reflexivity|].
  rewrite store_commit. reflexivity.
Qed.

(** Whatever is written to the store after [init_db], in whatever
    order, the history table keeps one record per (username, topic). *)
Lemma store_ops_one_record `{PasswordHash} (ops : list store_op) (w : world)
  (rows : list Sql.history_row) :
  Sql.history (store w) = Some rows -> one_record_per_topic rows ->
  exists rows', Sql.history (store (fold_left run_op ops w)) = Some rows'
    /\ one_record_per_topic rows'.
Proof.
  revert w rows. induction ops as [|op ops IH]; intros w rows Hrows Hone;
    cbn [fold_left]; [eauto|].
  destruct op as [salt u p|c]; cbn [run_op].
  - apply (IH _ rows); [|exact Hone].
    rewrite create_user_keeps_history. exact Hrows.
  - destruct (save_history_upserted w (uc_now c) (uc_username c) (uc_topic c)
                (uc_difficulty c) (uc_content c) rows Hrows)
      as (w' & rows' & Hsave & Hrows' & _ & _ & Hup).
    unfold upsert. rewrite Hsave. cbn [snd].
    apply (IH w' rows' Hrows'). eapply upserted_one_record; eassumption.
Qed.





End History.

(** ** Which file holds the tables *)

Module Paths.
Import Store.







Lemma ops_file_not_tmp (dir : list Z) :
  resolve dir (py "prepclass.db") = py "/tmp/prepclass.db" ->
  Str.contains (py "streamlit") dir = false.
Proof.
  unfold resolve. cbn [Str.first_is py]. 
  change (Str.first_is (py "prepclass.db") 47) with false. cbn iota.
  destruct (Str.endswith_char dir 47); intros Hr.
  - assert (dir = py "/tmp/") as ->; [|reflexivity].
    apply (app_inv_tail (py "prepclass.db")). exact Hr.
  - assert (dir = py "/tmp") as ->; [|reflexivity].
    apply (app_inv_tail (47 :: py "prepclass.db")). exact Hr.
Qed.


(** Without 'streamlit' in the working directory, [init_db] prepares
    the very file the persistence functions open; if there was no such
    file, both tables start empty. *)
Lemma init_db_store_ready (w : world) :
  Str.contains (py "streamlit") (cwd w) = false ->
  tables_exist (store (init_db w)) /\
  (files w !! ops_file w = None ->
   Sql.users (store (init_db w)) = Some [] /\
   Sql.history (store (init_db w)) = Some []).
Proof.
  intros Hs. unfold init_db, get_db_path. rewrite Hs.
  rewrite store_commit. split; [split; cbn; eauto|].
  intros Hnone. unfold connect. fold (ops_file w). rewrite Hnone.
  split; reflexivity.
Qed.

(** With 'streamlit' in the working directory and no database file
    there yet, the tables [init_db] creates are not where the
    persistence functions look: they all raise "no such table". *)
Lemma streamlit_cwd_no_tables `{PasswordHash} (w : world) :
  Str.contains (py "streamlit") (cwd w) = true ->
  files w !! ops_file w = None ->
  let w' := init_db w in
  (forall salt u p, create_user w' salt u p = (Raise OperationalError, w')) /\
  (forall u p, authenticate_user w' u p = Raise OperationalError) /\
  (forall now u t d c,
     save_history_to_db w' now u t d c = (Raise OperationalError, w')) /\
  (forall u, load_history_from_db w' u = Raise OperationalError).
Proof.
  intros Hs Hnone w'.
  assert (Hconn : connect w' (py "prepclass.db") = Sql.empty_database).
  { unfold connect, w', init_db, commit. cbn [cwd files].
    fold (ops_file w). unfold get_db_path. rewrite Hs.
    rewrite lookup_insert_ne, Hnone; [reflexivity|].
    intros Heq. symmetry in Heq. apply ops_file_not_tmp in Heq. congruence. }
  repeat split; intros.
  - unfold create_user. rewrite Hconn. reflexivity.
  - unfold authenticate_user. rewrite Hconn. reflexivity.
  - unfold save_history_to_db. rewrite Hconn. reflexivity.
  - unfold load_history_from_db. rewrite Hconn. reflexivity.
Qed.

End Paths.

(** ** The controller *)

Module Controller.

Lemma store_untouched_refl (a : app_state) : store_untouched a a.
Proof.
  split; [reflexivity|]. exists []. split; [symmetry; apply app_nil_r|constructor].
Qed.

Lemma store_untouched_trans (a b c : app_state) :
  store_untouched a b -> store_untouched b c -> store_untouched a c.
Proof.
  intros [Hw1 (l1 & Ht1 & Hl1)] [Hw2 (l2 & Ht2 & Hl2)].
  split; [congruence|]. exists (l1 ++ l2).
  split; [rewrite Ht2, Ht1, app_assoc; reflexivity|].
  apply Forall_app. split; assumption.
Qed.

Lemma store_untouched_emit (e : effect) (a : app_state) :
  ~ is_store_write e -> store_untouched a (emit e a).
Proof.
  intros He. split; [reflexivity|]. exists [e]. split; [reflexivity|].
  constructor; [exact He|constructor].
Qed.

Lemma store_untouched_session (f : session_state -> session_state) (a : app_state) :
  store_untouched a (with_session f a).
Proof.
  split; [reflexivity|]. exists []. split; [symmetry; apply app_nil_r|constructor].
Qed.

Ltac quiet_step :=
  first
    [ apply store_untouched_refl
    | apply store_untouched_session
    | apply store_untouched_emit; cbn; tauto
    | eapply store_untouched_trans; [|first [apply store_untouched_session | apply store_untouched_emit; cbn; tauto]] ].

Ltac quiet := repeat quiet_step.

Section WithApi.
Variable api : chat_request -> result (option (list Z)).

Lemma initialise_untouched (u : list Z) (a : app_state) :
  store_untouched a (snd (initialise u a)) /\
  get_selected_difficulty (a_session (snd (initialise u a)))
  = get_selected_difficulty (a_session a) /\
  authenticated (a_session (snd (initialise u a))) = authenticated (a_session a) /\
  username (a_session (snd (initialise u a))) = username (a_session a).
Proof.
  unfold initialise. destruct a as [w [au un h ct dc sd] tr]. cbn [a_session history].
  destruct h as [h|]; [|destruct (load_history_from_db _ u) as [h|e]];
    cbn [a_session with_session emit a_world a_trace current_topic displayed_content
         selected_difficulty set_history snd];
    destruct ct, dc, sd; cbn; (split; [quiet|repeat split]).
Qed.


Lemma download_buttons_untouched (kind topic : list Z) (text : option (list Z))
  (a : app_state) :
  store_untouched a (snd (download_buttons kind topic text a)).
Proof.
  unfold download_buttons. destruct text as [txt|]; cbn [snd]; [|quiet].
  destruct (create_markdown txt _); cbn [snd]; quiet.
Qed.

Lemma display_content_untouched (a : app_state) :
  store_untouched a (snd (display_content a)).
Proof.
  unfold display_content.
  destruct (negb _); cbn [snd]; [quiet|].
  set (topic := match get_current_topic (a_session a) with
                | Some (c :: t) => c :: t | _ => py "current_topic" end).
  pose proof (download_buttons_untouched (py "pre_class") topic
                (d_pre_class (get_displayed_content (a_session a))) a) as H1.
  destruct (download_buttons (py "pre_class") topic _ a) as [c1 a1].
  cbn [snd] in H1.
  destruct c1; cbn [snd]; try exact H1.
  pose proof (download_buttons_untouched (py "in_class") topic
                (d_in_class (get_displayed_content (a_session a))) a1) as H2.
  destruct (download_buttons (py "in_class") topic _ a1) as [c2 a2].
  cbn [snd] in H2.
  destruct c2; cbn [snd]; try (eapply store_untouched_trans; eassumption).
  eapply store_untouched_trans; [exact H1|].
  eapply store_untouched_trans; [exact H2|].
  apply download_buttons_untouched.
Qed.

Lemma generate_document_untouched (a : app_state) (prompt api_key : list Z) :
  fst (generate_document api a prompt api_key) = completion_text api prompt api_key /\
  store_untouched a (snd (generate_document api a prompt api_key)).
Proof. unfold generate_document. cbn [fst snd]. split; [reflexivity|quiet]. Qed.

(** If one of the three calls raises, the [try] block ends with an
    exception before it reaches [save_history_to_db]. *)
Lemma generate_materials_fails (now : Datetime.datetime) (u topic api_key : list Z)
  (a : app_state) :
  generation_fails api topic (get_selected_difficulty (a_session a)) api_key ->
  exists e a', generate_materials api now u topic api_key a = (Raise e, a')
    /\ store_untouched a a'
    /\ a_session a' = a_session a.
Proof.
  intros Hf. unfold generate_materials, generate_pre_class, generate_in_class,
    generate_post_class, generate_document.
  set (d := get_selected_difficulty (a_session a)) in *.
  destruct (completion_text api (prompt_pre_class topic d) api_key) as [pre|e1] eqn:E1.
  2:{ eexists _, _. split; [reflexivity|]. split; [quiet|reflexivity]. }
  destruct (completion_text api (prompt_in_class topic d) api_key) as [inc|e2] eqn:E2.
  2:{ eexists _, _. split; [reflexivity|]. split; [quiet|reflexivity]. }
  destruct (completion_text api (prompt_post_class topic d) api_key) as [post|e3] eqn:E3.
  2:{ eexists _, _. split; [reflexivity|]. split; [quiet|reflexivity]. }
  exfalso. destruct Hf as [[e He]|[[e He]|[e He]]]; congruence.
Qed.

Lemma generation_flow_fails (now : Datetime.datetime) (u : list Z) (wd : widgets)
  (a : app_state) :
  generation_fails api (topic_input wd) (get_selected_difficulty (a_session a))
    (api_key_input wd) ->
  store_untouched a (snd (generation_flow api now u wd a)) /\
  a_session (snd (generation_flow api now u wd a)) = a_session a.
Proof.
  intros Hf. unfold generation_flow.
  destruct (bool_decide (topic_input wd = [])); cbn [snd]; [split; [quiet|reflexivity]|].
  destruct (bool_decide (api_key_input wd = [])); cbn [snd]; [split; [quiet|reflexivity]|].
  destruct (generate_materials_fails now u (topic_input wd) (api_key_input wd) a Hf)
    as (e & a' & -> & Hq & Hs).
  cbn [snd]. split; [|exact Hs].
  eapply store_untouched_trans; [exact Hq|]. quiet.
Qed.


(** C4: in a run of [main_app] started by the Generate button, if any
    one of the three completion calls raises, the run makes no call to
    [save_history_to_db] and leaves every file, and so the history
    table, exactly as it was. *)
Theorem generation_error_saves_nothing (now : Datetime.datetime) (u : list Z)
  (wd : widgets) (a : app_state) :
  clicked wd = Some GenerateBtn ->
  generation_fails api (topic_input wd) (get_selected_difficulty (a_session a))
    (api_key_input wd) ->
  let a' := snd (main_app api now u wd a) in
  store_untouched a a' /\
  history_rows (a_world a') = history_rows (a_world a) /\
  (forall e, In e (a_trace a') ->
     match e with ESaveHistory _ _ _ _ => In e (a_trace a) | _ => True end).
Proof.
  intros Hclick Hfail a'.
  assert (Hq : store_untouched a a').
  { unfold a', main_app.
    destruct (initialise_untouched u a) as (Hq0 & Hd0 & _).
    destruct (initialise u a) as [[[]|e] a1]; cbn [snd] in *; [|exact Hq0].
    rewrite Hclick.
    rewrite (bool_decide_eq_false_2 (Some GenerateBtn = Some LoadTopicBtn)) by discriminate.
    rewrite (bool_decide_eq_false_2 (Some GenerateBtn = Some ClearHistoryBtn)) by discriminate.
    rewrite (bool_decide_eq_false_2 (Some GenerateBtn = Some LogoutBtn)) by discriminate.
    rewrite (bool_decide_eq_true_2 (Some GenerateBtn = Some GenerateBtn)) by reflexivity.
    rewrite andb_false_r.
    set (a2 := if match get_history (a_session a1) with [] => false | _ :: _ => true end
               then a1 else emit (EMessage InfoNoHistory) a1).
    assert (Hq2 : store_untouched a1 a2 /\ a_session a2 = a_session a1).
    { unfold a2. destruct (match get_history (a_session a1) with [] => false | _ => true end);
        split; first [reflexivity | quiet]. }
    destruct Hq2 as [Hq2 Hs2].
    assert (Hfail2 : generation_fails api (topic_input wd)
              (get_selected_difficulty (a_session a2)) (api_key_input wd))
      by (rewrite Hs2, Hd0; exact Hfail).
    destruct (generation_flow_fails now u wd a2 Hfail2) as [Hq3 _].
    destruct (generation_flow api now u wd a2) as [c3 a3]. cbn [snd] in Hq3.
    assert (Hq03 : store_untouched a a3)
      by (eapply store_untouched_trans; [exact Hq0|];
          eapply store_untouched_trans; [exact Hq2|exact Hq3]).
    destruct c3; cbn [snd]; try exact Hq03.
    destruct (truthy _ && truthy _ && truthy _); cbn [snd]; [|exact Hq03].
    eapply store_untouched_trans; [exact Hq03|apply display_content_untouched]. }
  split; [exact Hq|]. destruct Hq as [Hw (added & Ht & Hadded)].
  split; [rewrite Hw; reflexivity|].
  intros e He. rewrite Ht in He. destruct e; try exact I.
  apply in_app_or in He. destruct He as [He|He]; [exact He|].
  exfalso. apply (proj1 (List.Forall_forall _ _) Hadded _ He). exact I.
Qed.

(** C9: a run of [main_app] started by the Clear History button writes
    nothing to the store: every file, and so every row of the history
    table, is as before, the login is kept, and only the history cache,
    the current topic, the displayed content and the selected difficulty
    are reset; what [load_history_from_db] returns for any user, and
    what a later login in a new session loads, is what it was before the
    clear. *)
Theorem clear_history_keeps_rows (now : Datetime.datetime) (u : list Z)
  (wd : widgets) (a : app_state) :
  clicked wd = Some ClearHistoryBtn ->
  let a' := snd (main_app api now u wd a) in
  store_untouched a a' /\
  authenticated (a_session a') = authenticated (a_session a) /\
  username (a_session a') = username (a_session a) /\
  (fst (main_app api now u wd a) = Rerun ->
     history (a_session a') = Some [] /\
     current_topic (a_session a') = Some None /\
     displayed_content (a_session a') = Some no_content /\
     selected_difficulty (a_session a') = Some (py "Beginner")) /\
  (forall user,
     history_rows (a_world a') = history_rows (a_world a) /\
     load_history_from_db (a_world a') user = load_history_from_db (a_world a) user /\
     initialise user (logged_in user (a_world a'))
     = initialise user (logged_in user (a_world a))).
Proof.
  intros Hclick a'.
  assert (Hmain : store_untouched a a' /\
    authenticated (a_session a') = authenticated (a_session a) /\
    username (a_session a') = username (a_session a) /\
    (fst (main_app api now u wd a) = Rerun ->
       history (a_session a') = Some [] /\
       current_topic (a_session a') = Some None /\
       displayed_content (a_session a') = Some no_content /\
       selected_difficulty (a_session a') = Some (py "Beginner"))).
  { unfold a', main_app.
    destruct (initialise_untouched u a) as (Hq0 & _ & Hau & Hun).
    destruct (initialise u a) as [[[]|e] a1]; cbn [fst snd] in *.
    2:{ split; [exact Hq0|]. split; [exact Hau|]. split; [exact Hun|].
        intros Hx. discriminate Hx. }
    rewrite Hclick.
    rewrite (bool_decide_eq_false_2 (Some ClearHistoryBtn = Some LoadTopicBtn)) by discriminate.
    rewrite (bool_decide_eq_true_2 (Some ClearHistoryBtn = Some ClearHistoryBtn)) by reflexivity.
    rewrite andb_false_r.
    destruct (match get_history (a_session a1) with [] => false | _ => true end);
      unfold clear_history; cbn [fst snd];
      (split; [eapply store_untouched_trans; [exact Hq0|quiet]|]);
      cbn; rewrite Hau, Hun; repeat split. }
  destruct Hmain as (Hq & Hau & Hun & Hre).
  split; [exact Hq|]. split; [exact Hau|]. split; [exact Hun|]. split; [exact Hre|].
  intros user. destruct Hq as [Hw _]. rewrite Hw. repeat split.
Qed.

End WithApi.

(** C4 for a Generate click while the endpoint refuses every request. *)
Lemma generation_error_saves_nothing_witness :
  let a := logged_in (py "mentor1") demo_history in
  let a' := snd (main_app demo_api_down (at_minute 2024 1 3 8 0) (py "mentor1")
                   (demo_widgets GenerateBtn) a) in
  store_untouched a a' /\
  history_rows (a_world a') = history_rows (a_world a) /\
  (forall e, In e (a_trace a') ->
     match e with ESaveHistory _ _ _ _ => In e (a_trace a) | _ => True end).
Proof.
  apply (generation_error_saves_nothing demo_api_down).
  - reflexivity.
  - left. eexists. reflexivity.
Defined.

(** C9 for a Clear History click over a store that holds two topics. *)
Lemma clear_history_keeps_rows_witness :
  let a := logged_in (py "mentor1") demo_history in
  let a' := snd (main_app demo_api_down (at_minute 2024 1 3 8 0) (py "mentor1")
                   (demo_widgets ClearHistoryBtn) a) in
  store_untouched a a' /\
  authenticated (a_session a') = authenticated (a_session a) /\
  username (a_session a') = username (a_session a) /\
  (fst (main_app demo_api_down (at_minute 2024 1 3 8 0) (py "mentor1")
          (demo_widgets ClearHistoryBtn) a) = Rerun ->
     history (a_session a') = Some [] /\
     current_topic (a_session a') = Some None /\
     displayed_content (a_session a') = Some no_content /\
     selected_difficulty (a_session a') = Some (py "Beginner")) /\
  (forall user,
     history_rows (a_world a') = history_rows (a_world a) /\
     load_history_from_db (a_world a') user = load_history_from_db (a_world a) user /\
     initialise user (logged_in user (a_world a'))
     = initialise user (logged_in user (a_world a))).
Proof.
  apply (clear_history_keeps_rows demo_api_down).
  reflexivity.
Defined.

End Controller.

(** ** The scenario of the specification, run on the model *)

Module Scenario.

(** Sign up mentor1, generate "Recursion" at Beginner, then again at
    Advanced: the account exists, and the history holds one "Recursion"
    entry with the second difficulty, timestamp and content. *)
Example regenerate_overwrites :
  let '(r0, w1) := create_user (H := demo_hash) demo_world (py "c2FsdA")
                     (py "mentor1") (py "password123") in
  let '(r1, w2) := save_history_to_db w1 (at_minute 2024 1 1 10 0)
                     (py "mentor1") (py "Recursion") (py "Beginner")
                     (demo_content "v1") in
  let '(r2, w3) := save_history_to_db w2 (at_minute 2024 1 2 9 0)
                     (py "mentor1") (py "Recursion") (py "Advanced")
                     (demo_content "v2") in
  r0 = Ok true /\ r1 = Ok tt /\ r2 = Ok tt /\
  authenticate_user (H := demo_hash) w3 (py "mentor1") (py "password123") = Ok true /\
  authenticate_user (H := demo_hash) w3 (py "mentor1") (py "password124") = Ok false /\
  authenticate_user (H := demo_hash) w3 (py "nobody") (py "password123") = Ok false /\
  load_history_from_db w3 (py "mentor1")
  = Ok [(py "Recursion",
         {| e_difficulty := py "Advanced"; e_timestamp := py "2024-01-02 09:00";
            e_pre_class := py "pre v2"; e_in_class := py "in v2";
            e_post_class := py "post v2" |})].
Proof. vm_compute. repeat split. Qed.

(** The two records of the ordering example, in dict order. *)
Example newest_topic_first :
  (fun d => List.map as_string (Dict.keys d))
    <$> load_history_from_db demo_history (py "mentor1")
  = Ok ["SQL Joins"%string; "Recursion"%string].
Proof. vm_compute. reflexivity. Qed.

(** A heading, an indented markdown heading and a body line. *)
Example create_pdf_sample :
  Fpdf.items (create_pdf (py "Overview:
  ## Key Concepts
Memoization vs. tabulation") [])
  = [Fpdf.Cell heading_font 200 10 (py "Overview:") true;
     Fpdf.Cell heading_font 200 10 (py "  ## Key Concepts") true;
     Fpdf.MultiCell body_font 0 8 (py "Memoization vs. tabulation")].
Proof. vm_compute. reflexivity. Qed.

(** A character above 0xFF leaves the PDF text as '?' and the markdown
    bytes as its UTF-8 form. *)
Example exports_of_euro_sign :
  clean_text [8364; 53] = py "?5" /\
  create_markdown [8364; 53] [] = Ok [226; 130; 172; 53].
Proof. split; reflexivity. Qed.

(** In a Streamlit Cloud checkout the sign-up fails with "no such
    table": the tables are in /tmp/prepclass.db. *)
Example signup_on_streamlit_cloud :
  let w := init_db {| cwd := py "/mount/src/streamlit-app"; files := ∅ |} in
  get_db_path w = py "/tmp/prepclass.db" /\
  fst (create_user (H := demo_hash) w (py "c2FsdA") (py "mentor1") (py "password123"))
  = Raise OperationalError.
Proof. vm_compute. split; reflexivity. Qed.

End Scenario.
